(** * Cluster pool handler (cello, [admin/modules/cluster.py])

  A shallow embedding of [ClusterHandler]: the two cluster collections
  and the host collection are explicit state, the container backend and
  the clock are inputs, Python exceptions are a result type. *)

From stdpp Require Import base gmap list strings pretty sorting.
From Stdlib Require Import ZArith Lia Ascii.

Local Open Scope Z_scope.

(** ** Python values and the few builtins the handler relies on *)
Module Py.

(** The values stored in a document.  [None] is the absence of a value
    ([option value]); [VTime] is a [datetime], [VOid] an [ObjectId]. *)
Inductive value :=
| VStr (s : string)
| VInt (z : Z)
| VTime (t : Z)
| VList (l : list string)
| VOid (s : string).

#[global] Instance value_eq_dec : EqDecision value.
Proof. solve_decision. Defined.

Inductive exn :=
| TypeError | AttributeError | ValueError | DuplicateKeyError.

Inductive result (A : Type) :=
| Ret (a : A)
| Raise (e : exn).
Arguments Ret {A} a.
Arguments Raise {A} e.

(** Truth value of an expression such as [c.get("release_ts")]. *)
Definition truthy (v : option value) : bool :=
  match v with
  | None => false
  | Some (VStr s) => bool_decide (s ≠ EmptyString)
  | Some (VInt z) => bool_decide (z ≠ 0)
  | Some (VList l) => bool_decide (l ≠ [])
  | Some (VTime _) | Some (VOid _) => true
  end.

(** [s.split(sep)] for a one-character separator: never the empty list. *)
Fixpoint split (sep : Ascii.ascii) (s : string) : list string :=
  match s with
  | EmptyString => [EmptyString]
  | String c s' =>
      if bool_decide (c = sep) then EmptyString :: split sep s'
      else match split sep s' with
           | seg :: rest => String c seg :: rest
           | [] => [String c EmptyString]
           end
  end.

(** [l[-1]] on the result of a split. *)
Definition last_seg (l : list string) : string := List.last l EmptyString.

(** [s[n:]] *)
Fixpoint slice_from (n : nat) (s : string) : string :=
  match n, s with
  | O, _ => s
  | S n', String _ s' => slice_from n' s'
  | S _, EmptyString => EmptyString
  end.

(** Binding of keyword arguments at a call: a keyword that is not one of
    the callee's parameters is a [TypeError] raised before the body runs. *)
Definition bind_keywords (params : list string) (kwargs : list string)
  : result unit :=
  if bool_decide (Forall (λ k, k ∈ params) kwargs) then Ret tt
  else Raise TypeError.

End Py.
Export Py.

(** ** The document store *)
Module Mongo.

Abbreviation doc := (gmap string value).

(** An equality query [{k1: v1, ...}]. *)
Definition query := list (string * value).

Definition matches (q : query) (d : doc) : Prop :=
  Forall (λ kv, d !! kv.1 = Some kv.2) q.

#[global] Instance matches_dec q d : Decision (matches q d).
Proof. unfold matches. apply _. Defined.

(** [{"$set": patch}] applied to one document. *)
Definition set_fields (patch : list (string * value)) (d : doc) : doc :=
  foldr (λ kv acc, <[kv.1 := kv.2]> acc) d patch.

(** Collections keep insertion order; [find_one] takes the first match. *)
Definition find_one (q : query) (col : list doc) : option doc :=
  List.find (λ d, bool_decide (matches q d)) col.

Definition find (q : query) (col : list doc) : list doc :=
  filter (matches q) col.

Fixpoint update_first (q : query) (f : doc → doc) (col : list doc)
  : list doc :=
  match col with
  | [] => []
  | d :: rest =>
      if decide (matches q d) then f d :: rest
      else d :: update_first q f rest
  end.

Definition update_one (q : query) (patch : list (string * value))
    (col : list doc) : list doc :=
  update_first q (set_fields patch) col.

(** [find_one_and_update(q, {"$set": patch},
    return_document=ReturnDocument.AFTER)]: one step on the collection,
    returning the post-image of the document it changed. *)
Definition find_one_and_update (q : query) (patch : list (string * value))
    (col : list doc) : list doc * option doc :=
  (update_one q patch col, set_fields patch <$> find_one q col).

Fixpoint delete_one (q : query) (col : list doc) : list doc :=
  match col with
  | [] => []
  | d :: rest =>
      if decide (matches q d) then rest else d :: delete_one q rest
  end.

(** [insert_one]: the [_id] index is unique. *)
Definition insert_one (d : doc) (col : list doc) : result (list doc) :=
  match d !! "_id" with
  | Some i =>
      if decide (Exists (λ d', d' !! "_id" = Some i) col)
      then Raise DuplicateKeyError
      else Ret (col ++ [d])
  | None => Ret (col ++ [d])
  end.

(** Host records belong to the host subsystem; they are read here with
    the schema that subsystem gives them. *)
Record host := Host {
  h_id : string;
  h_daemon_url : string;
  h_status : string;
  h_capacity : Z;
  h_clusters : list string
}.

(** [col_host.find_one({"id": v})] for a value read out of a document. *)
Definition host_by_id (v : option value) (hs : list host) : option host :=
  match v with
  | Some (VStr i) => List.find (λ h, bool_decide (h_id h = i)) hs
  | _ => None
  end.

(** [col_host.find_one({"status": s})] *)
Definition host_by_status (s : string) (hs : list host) : option host :=
  List.find (λ h, bool_decide (h_status h = s)) hs.

(** [col_host.update_one({"id": i}, {"$set": {"clusters": cl}})] *)
Fixpoint host_set_clusters (i : option value) (cl : list string)
    (hs : list host) : list host :=
  match hs with
  | [] => []
  | h :: rest =>
      if bool_decide (Some (VStr (h_id h)) = i)
      then Host (h_id h) (h_daemon_url h) (h_status h) (h_capacity h) cl
           :: rest
      else h :: host_set_clusters i cl rest
  end.

End Mongo.
Export Mongo.

(** ** The handler *)
Module ClusterHandler.

(** The shared state: [db["cluster_active"]], [db["cluster_released"]],
    the host collection and the process environment [os.environ]. *)
Record world := World {
  col_active : list doc;
  col_released : list doc;
  col_host : list host;
  environ : gmap string string
}.

Definition with_active (w : world) (a : list doc) : world :=
  World a (col_released w) (col_host w) (environ w).
Definition with_released (w : world) (r : list doc) : world :=
  World (col_active w) r (col_host w) (environ w).
Definition with_host (w : world) (h : list host) : world :=
  World (col_active w) (col_released w) h (environ w).
Definition with_environ (w : world) (e : gmap string string) : world :=
  World (col_active w) (col_released w) (col_host w) e.

Definition NOT_READY : string := "__NOT_READY_FOR_APPLY__".

(** The result of [find_free_api_ports]: a list, or the string [""]. *)
Inductive ports_result :=
| PortList (l : list Z)
| EmptyStr.

(** [clusters.remove(id)]: the first occurrence only. *)
Fixpoint py_remove (x : string) (l : list string) : list string :=
  match l with
  | [] => []
  | y :: rest => if bool_decide (y = x) then rest else y :: py_remove x rest
  end.

(** [not c] for the result of a [find_one]. *)
Definition py_not (c : option doc) : bool :=
  match c with
  | None => true
  | Some d => bool_decide (d = ∅)
  end.

Definition format_url (host_ip : string) (port : Z) : string :=
  "http://" +:+ host_ip +:+ ":" +:+ pretty port.

Section handler.

(** [CLUSTER_API_PORT_START] comes from [common]; [py_int] is the
    builtin [int] on a string ([None] when it raises [ValueError]);
    [test_daemon] and [project_up] are the answers of the container
    backend ([project_up name port daemon] is what
    [get_project(...).up(detached=True)] gives, as container ids). *)
Context (CLUSTER_API_PORT_START : Z)
        (py_int : string → option Z)
        (test_daemon : string → bool)
        (project_up : string → string → string → result (list string)).

Definition compose_environ (name port daemon_url : string)
    (e : gmap string string) : gmap string string :=
  <["API_URL_PORT" := port]>
    (<["PEER_NETWORKID" := name]>
       (<["COMPOSE_PROJECT_NAME" := name]>
          (<["DOCKER_HOST" := daemon_url]> e))).

Definition _compose_start_project (w : world)
    (name port daemon_url : string) : world * result (list string) :=
  (with_environ w (compose_environ name port daemon_url (environ w)),
   project_up name port daemon_url).

(** Its only caller swallows whatever the backend raises, so only the
    environment it sets is kept. *)
Definition _compose_stop_project (w : world)
    (name port daemon_url : string) : world :=
  with_environ w (compose_environ name port daemon_url (environ w)).

Definition _serialize (d : doc) (keys : list string) : doc :=
  foldr (λ k acc, <[k := default (VStr "") (d !! k)]> acc) ∅ keys.

(** The [for i in range(...)] loop of [_gen_api_url]. *)
Fixpoint first_free_url (host_ip : string) (existed : list value)
    (candidates : list Z) : string :=
  match candidates with
  | [] => ""
  | i :: rest =>
      let new_url := format_url host_ip (CLUSTER_API_PORT_START + i) in
      if decide (VStr new_url ∉ existed) then new_url
      else first_free_url host_ip existed rest
  end.

Definition _gen_api_url (w : world) (host_id : string) (api_port : Z)
  : string :=
  match host_by_id (Some (VStr host_id)) (col_host w) with
  | None => ""
  | Some host =>
      let segs := split ":"%char (h_daemon_url host) in
      if decide (length segs ≠ 3%nat) then ""
      else
        let host_ip := slice_from 2 (default "" (segs !! 1%nat)) in
        if decide (0 < api_port) then format_url host_ip api_port
        else
          let exists_ := find [("host_id", VStr host_id)] (col_active w) in
          let api_url_existed :=
            (λ c : doc, default (VStr "") (c !! "api_url")) <$> exists_ in
          first_free_url host_ip api_url_existed
            (seqZ 0 (Z.of_nat (length api_url_existed) + 1))
  end.

(** [delete(id, col_name, record, forced)]; [now] is the clock read
    when [release_ts] is stamped. *)
Definition delete (w : world) (id col_name : string)
    (record forced : bool) (now : Z) : world * bool :=
  let active := bool_decide (col_name = "active") in
  let collection := if active then col_active w else col_released w in
  let c :=
    if active && negb forced
    then find_one [("id", VStr id); ("user_id", VStr "")] collection
    else find_one [("id", VStr id)] collection in
  match c with
  | None => (w, false)
  | Some c0 =>
      if py_not c then (w, false)
      else
        let '(w1, c1) :=
          if active then
            let api_url := default (VStr "") (c0 !! "api_url") in
            let w' :=
              match host_by_id (c0 !! "host_id") (col_host w), api_url with
              | Some h, VStr u =>
                  _compose_stop_project w id (last_seg (split ":"%char u))
                                        (h_daemon_url h)
              | _, _ => w
              end in
            if record then
              let c' := if truthy (c0 !! "release_ts") then c0
                        else <["release_ts" := VTime now]> c0 in
              match insert_one c' (col_released w') with
              | Ret r => (with_released w' r, c')
              | Raise _ => (w', c')
              end
            else (w', c0)
          else (w, c0) in
        let w2 :=
          match host_by_id (c1 !! "host_id") (col_host w1) with
          | Some h =>
              let clusters :=
                if decide (id ∈ h_clusters h)
                then py_remove id (h_clusters h) else h_clusters h in
              with_host w1
                (host_set_clusters (c1 !! "host_id") clusters (col_host w1))
          | None => w1
          end in
        let w3 :=
          if active
          then with_active w2 (delete_one [("id", VStr id)] (col_active w2))
          else with_released w2
                 (delete_one [("id", VStr id)] (col_released w2)) in
        (w3, true)
  end.

(** [create(name, host_id, api_port, user_id)]; [oid] is the
    [ObjectId] the driver generates for the insert, [now] the clock. *)
Definition create (w : world) (name host_id : string) (api_port : Z)
    (user_id : string) (oid : string) (now : Z)
  : world * result (option string) :=
  match host_by_id (Some (VStr host_id)) (col_host w) with
  | None => (w, Ret None)
  | Some h =>
      if decide (h_capacity h ≤ Z.of_nat (length (h_clusters h)))
      then (w, Ret None)
      else
        let daemon_url := h_daemon_url h in
        if negb (test_daemon daemon_url) then (w, Ret None)
        else
          let api_url := _gen_api_url w host_id api_port in
          let c : doc :=
            {[ "name" := VStr name;
               "user_id" := VStr (if decide (user_id = "") then NOT_READY
                                  else user_id);
               "api_url" := VStr api_url;
               "host_id" := VStr host_id;
               "create_ts" := VTime now;
               "release_ts" := VStr "" ]} in
          match insert_one (<["_id" := VOid oid]> c) (col_active w) with
          | Raise e => (w, Raise e)
          | Ret a1 =>
              let w1 :=
                with_active w
                  (update_one [("_id", VOid oid)] [("id", VStr oid)] a1) in
              let '(w2, started) :=
                _compose_start_project w1 oid
                  (last_seg (split ":"%char api_url)) daemon_url in
              match started with
              | Raise _ =>
                  ((delete w2 oid "active" false true now).1, Ret None)
              | Ret [] =>
                  ((delete w2 oid "active" false true now).1, Ret None)
              | Ret containers =>
                  match host_by_id (Some (VStr host_id)) (col_host w2) with
                  | None => (w2, Raise AttributeError)
                  | Some h' =>
                      let clusters := h_clusters h' ++ [oid] in
                      let w3 :=
                        with_host w2
                          (host_set_clusters (Some (VStr host_id))
                                             clusters (col_host w2)) in
                      (with_active w3
                         (update_one [("_id", VOid oid)]
                            [("node_containers", VList containers);
                             ("user_id", VStr user_id)]
                            (col_active w3)),
                       Ret (Some oid))
                  end
              end
          end
  end.

(** [apply_cluster(user_id)]; [now] stamps [apply_ts]. *)
Definition apply_cluster (w : world) (user_id : string) (now : Z)
  : world * option doc :=
  match host_by_status "active" (col_host w) with
  | None => (w, None)
  | Some h =>
      let c := find_one [("user_id", VStr user_id);
                         ("release_ts", VStr "");
                         ("host_id", VStr (h_id h))] (col_active w) in
      let '(a, c) :=
        if py_not c then
          find_one_and_update
            [("user_id", VStr "")]
            [("user_id", VStr user_id); ("apply_ts", VTime now)]
            (col_active w)
        else (col_active w, c) in
      let w' := with_active w a in
      match c with
      | Some d =>
          if negb (py_not c)
             && bool_decide (d !! "user_id" = Some (VStr user_id))
          then (w', Some (<["daemon_url" := VStr (h_daemon_url h)]>
                            (_serialize d
                               ["id"; "name"; "user_id"; "api_url"])))
          else (w', None)
      | None => (w', None)
      end
  end.

Definition create_params : list string :=
  ["name"; "host_id"; "api_port"; "user_id"].

(** The closure [delete_recreate_work] over the released record [c],
    run on its own thread.  [now] and [oid], [now'] are the clock and
    the driver's id for its [delete] and [create]. *)
Definition delete_recreate_work (c : doc) (w : world) (now : Z)
    (oid : string) (now' : Z) : world * result unit :=
  match c !! "id" with
  | Some (VStr cluster_id) =>
      let w1 := (delete w cluster_id "active" true true now).1 in
      match c !! "name" with
      | Some (VStr cluster_name) =>
          (* self.create(cluster_name, host_id, api_url=cluster_api_url) *)
          match bind_keywords create_params ["api_url"] with
          | Raise e => (w1, Raise e)
          | Ret _ =>
              match c !! "host_id" with
              | Some (VStr host_id) =>
                  let '(w2, r) :=
                    create w1 cluster_name host_id 0 "" oid now' in
                  (w2, match r with
                       | Ret _ => Ret tt
                       | Raise e => Raise e
                       end)
              | _ => (w1, Raise TypeError)
              end
          end
      | _ => (w1, Raise TypeError)
      end
  | _ => (w, Raise TypeError)
  end.

(** [release_cluster(user_id)]: the state after the call, its return
    value, and the record captured by the thread it starts (if any). *)
Definition release_cluster (w : world) (user_id : string) (now : Z)
  : world * bool * option doc :=
  let '(a, c) :=
    find_one_and_update
      [("user_id", VStr user_id); ("release_ts", VStr "")]
      [("release_ts", VTime now)]
      (col_active w) in
  let w' := with_active w a in
  match c with
  | Some d =>
      if py_not c || negb (truthy (d !! "release_ts"))
      then (w', false, None)
      else (w', true, Some d)
  | None => (w', false, None)
  end.

(** The call followed by its background thread run to the end; what the
    thread raises stays in the thread. *)
Definition release_then_recycle (w : world) (user_id : string)
    (now now_d : Z) (oid : string) (now_c : Z) : world * bool :=
  match release_cluster w user_id now with
  | (w', ok, Some c) => ((delete_recreate_work c w' now_d oid now_c).1, ok)
  | (w', ok, None) => (w', ok)
  end.

(** [int(c.get("api_url", "").split(":")[-1])] *)
Definition port_of (c : doc) : result Z :=
  match default (VStr "") (c !! "api_url") with
  | VStr u =>
      match py_int (last_seg (split ":"%char u)) with
      | Some p => Ret p
      | None => Raise ValueError
      end
  | _ => Raise AttributeError
  end.

Fixpoint ports_of (cs : list doc) : result (list Z) :=
  match cs with
  | [] => Ret []
  | c :: rest =>
      match port_of c with
      | Raise e => Raise e
      | Ret p =>
          match ports_of rest with
          | Raise e => Raise e
          | Ret ps => Ret (p :: ps)
          end
      end
  end.

Definition find_free_api_ports (w : world) (host_id : string)
    (number : Z) : result ports_result :=
  if decide (number ≤ 0) then Ret (PortList [])
  else
    match host_by_id (Some (VStr host_id)) (col_host w) with
    | None => Ret EmptyStr
    | Some host =>
        let segs := split ":"%char (h_daemon_url host) in
        if decide (length segs ≠ 3%nat) then Ret EmptyStr
        else
          let clusters_exists :=
            find [("host_id", VStr host_id)] (col_active w) in
          match ports_of clusters_exists with
          | Raise e => Raise e
          | Ret ports_existed =>
              if decide (64000 ≤ Z.of_nat (length ports_existed) + number)
              then Ret (PortList [])
              else
                let candidates :=
                  (λ i, CLUSTER_API_PORT_START + i)
                    <$> seqZ 0 (Z.of_nat (length ports_existed) + number) in
                let result :=
                  filter (λ item, item ∉ ports_existed) candidates in
                Ret (PortList (take (Z.to_nat number) result))
          end
    end.

End handler.
End ClusterHandler.

Import ClusterHandler.

(** ** Names for the queries and records the handler writes *)

(** The two queries of [apply_cluster] and the patch of its claim. *)
Definition lease_query (u : string) (h : host) : query :=
[("user_id", VStr u); ("release_ts", VStr ""); ("host_id", VStr (h_id h))].
Definition idle_query : query := [("user_id", VStr "")].
Definition claim_patch (u : string) (now : Z) : list (string * value) :=
[("user_id", VStr u); ("apply_ts", VTime now)].

(** What [apply_cluster] hands back for the record [d] on host [h]. *)
Definition projection (d : doc) (h : host) : doc :=
<["daemon_url" := VStr (h_daemon_url h)]>
  (_serialize d ["id"; "name"; "user_id"; "api_url"]).

(** [c["release_ts"] = now] unless the record carries one already. *)
Definition stamp_release (d : doc) (now : Z) : doc :=
if truthy (d !! "release_ts") then d else <["release_ts" := VTime now]> d.

(** The record of [create] as it stands in the active collection
  between the insert and the backend start. *)
Definition inserted_record (name host_id user_id api_url oid : string)
  (now : Z) : doc :=
<["id" := VStr oid]>
  (<["_id" := VOid oid]>
     {[ "name" := VStr name;
        "user_id" := VStr (if decide (user_id = "") then NOT_READY
                           else user_id);
        "api_url" := VStr api_url;
        "host_id" := VStr host_id;
        "create_ts" := VTime now;
        "release_ts" := VStr "" ]}).

(** The id the driver generates is new to the collection. *)
Definition fresh_oid (oid : string) (col : list doc) : Prop :=
Forall (λ d, d !! "_id" ≠ Some (VOid oid) ∧ d !! "id" ≠ Some (VStr oid))
       col.

#[global] Instance fresh_oid_dec oid col : Decision (fresh_oid oid col).
Proof. unfold fresh_oid. apply _. Defined.

(** The state [create] has reached when it calls the backend. *)
Definition provisioning (w : world) (name host_id user_id api_url oid
  daemon_url : string) (now : Z) : world :=
World (col_active w
         ++ [inserted_record name host_id user_id api_url oid now])
      (col_released w) (col_host w)
      (compose_environ oid (last_seg (split ":"%char api_url)) daemon_url
                       (environ w)).

(** ** Concrete stores used to exercise the handler *)
Module Scenario.
(** Decimal digits, as the builtin [int] reads them. *)
Fixpoint digits (s : string) (acc : Z) : option Z :=
  match s with
  | EmptyString => Some acc
  | String c s' =>
      let n := Z.of_nat (nat_of_ascii c) - 48 in
      if bool_decide (0 ≤ n ≤ 9) then digits s' (10 * acc + n) else None
  end.

Definition int_digits (s : string) : option Z :=
  match s with
  | EmptyString => None
  | _ => digits s 0
  end.

Definition port_start : Z := 7050.
Definition daemon_up (_ : string) : bool := true.
Definition up_one (_ _ _ : string) : result (list string) := Ret ["peer0"].
Definition up_fails (_ _ _ : string) : result (list string) :=
  Raise ValueError.

Definition host1_with (clusters : list string) : host :=
  Host "h1" "tcp://10.0.0.1:2375" "active" 4 clusters.
Definition host1 : host := host1_with [].
Definition host2 : host := Host "h2" "tcp://10.0.0.2:2375" "active" 4 [].
(** A daemon address without a port: two segments. *)
Definition host_noport : host := Host "h1" "tcp://10.0.0.1" "active" 4 [].

Definition empty_pool : world := World [] [] [host1] ∅.

(** A record as [create] leaves it once the backend is up. *)
Definition cluster (oid name host_id user : string) (port : string) : doc :=
  {[ "_id" := VOid oid; "id" := VStr oid; "name" := VStr name;
     "user_id" := VStr user; "host_id" := VStr host_id;
     "api_url" := VStr ("http://10.0.0.1:" +:+ port);
     "create_ts" := VTime 1; "release_ts" := VStr "";
     "node_containers" := VList ["peer0"] ]}.

(** One idle cluster that carries a [size] attribute. *)
Definition sized_pool : world :=
  World [<["size" := VInt 4]> (cluster "a1" "c1" "h1" "" "7050")] []
        [host1_with ["a1"]] ∅.

(** One cluster leased to ["alice"]. *)
Definition leased_pool : world :=
  World [cluster "a1" "c1" "h1" "alice" "7050"] []
        [host1_with ["a1"]] ∅.

(** Two active hosts; the first idle cluster lives on the second host. *)
Definition two_hosts : world :=
  World [cluster "a1" "c1" "h2" "" "7050"; cluster "a2" "c2" "h1" "" "7050"]
        []
        [host1_with ["a2"];
         Host "h2" "tcp://10.0.0.2:2375" "active" 4 ["a1"]] ∅.

Definition noport_pool : world := World [] [] [host_noport] ∅.

(** A cluster still provisioning, ahead of an idle one. *)
Definition mixed_pool : world :=
  World [cluster "p1" "c0" "h1" NOT_READY "7049";
         cluster "a1" "c1" "h1" "" "7050"] []
        [host1_with ["p1"; "a1"]] ∅.

(** The record of [sized_pool] once ["alice"] has claimed it at time 10. *)
Definition sized_claimed : doc :=
  <["user_id" := VStr "alice"]>
    (<["apply_ts" := VTime 10]>
       (<["size" := VInt 4]> (cluster "a1" "c1" "h1" "" "7050"))).

End Scenario.

(** ** The read side of the handler: [get] and [list] *)
Module ClusterHandlerRead.

(** The default [keys] of [_serialize]. *)
Definition default_keys : list string :=
  ["id"; "name"; "user_id"; "host_id"; "api_url"; "create_ts"; "apply_ts";
   "release_ts"; "node_containers"].

(** [get(id, serialization, collection)]: the empty dict when nothing is
    found. *)
Definition get (w : world) (id : string) (serialization : bool)
    (collection : string) : doc :=
  let ins :=
    if bool_decide (collection ≠ "released")
    then find_one [("id", VStr id)] (col_active w)
    else find_one [("id", VStr id)] (col_released w) in
  match ins with
  | None => ∅
  | Some d =>
      if py_not ins then ∅
      else if serialization then _serialize d default_keys else d
  end.

(** [list(filter_data, collection)] for an equality filter; [None] for a
    collection that is neither ["active"] nor ["released"]. *)
Definition list (w : world) (filter_data : query) (collection : string)
  : option (list doc) :=
  if bool_decide (collection = "active")
  then Some ((λ d, _serialize d default_keys)
               <$> find filter_data (col_active w))
  else if bool_decide (collection = "released")
  then Some ((λ d, _serialize d default_keys)
               <$> find filter_data (col_released w))
  else None.

End ClusterHandlerRead.

(** ** The [cluster_op] actions of [src/resources/cluster.py] *)
Module ClusterApi.

(** The calls of the response helpers of [common], kept as written: the
    [data] of [make_ok_response], the positional argument or the [error]
    keyword of [make_fail_response]. *)
Inductive response :=
| make_ok_response (data : option doc)
| make_fail_response (positional : option string) (error : option string).

(** Truth value of what [request_get] returns. *)
Definition given (v : option string) : bool :=
  match v with
  | Some s => bool_decide (s ≠ "")
  | None => false
  end.

Section api.

(** [request_get], the three allowed sets and the handler the module
    imports are not part of these files: the handler's operations take the
    store and give it back with their result.  [py_int] is the builtin
    [int] on a string. *)
Context {request : Type}
        (request_get : request → string → option string)
        (py_int : string → option Z)
        (CONSENSUS_PLUGINS CONSENSUS_MODES : list string)
        (CLUSTER_SIZES : list Z)
        (handler_apply_cluster :
           world → string → doc → option string → world * option doc)
        (handler_release_cluster handler_start handler_stop handler_restart :
           world → string → world * bool).

(** One of [cluster_start], [cluster_restart], [cluster_stop],
    [cluster_release]: they differ in the handler operation and in the
    message. *)
Definition cluster_id_action (op : world → string → world * bool)
    (failed : string) (w : world) (r : request) : world * response :=
  let cluster_id := request_get r "cluster_id" in
  match cluster_id with
  | Some c =>
      if negb (given cluster_id)
      then (w, make_fail_response (Some "No cluster_id is given") None)
      else
        let '(w', ok) := op w c in
        if ok then (w', make_ok_response None)
        else (w', make_fail_response (Some failed) None)
  | None => (w, make_fail_response (Some "No cluster_id is given") None)
  end.

Definition cluster_start := cluster_id_action handler_start "cluster start failed".
Definition cluster_restart :=
  cluster_id_action handler_restart "cluster restart failed".
Definition cluster_stop := cluster_id_action handler_stop "cluster stop failed".
Definition cluster_release :=
  cluster_id_action handler_release_cluster "cluster release failed".

(** [cluster_apply(r)] *)
Definition cluster_apply (w : world) (r : request) : world * result response :=
  let user_id := request_get r "user_id" in
  match user_id with
  | None =>
      (w, Ret (make_fail_response (Some "cluster_apply without user_id") None))
  | Some u =>
      if negb (given user_id)
      then (w, Ret (make_fail_response
                      (Some "cluster_apply without user_id") None))
      else
        let allow_multiple := request_get r "allow_multiple" in
        let condition : doc := ∅ in
        let consensus_plugin := request_get r "consensus_plugin" in
        let consensus_mode := request_get r "consensus_mode" in
        (* int(request_get(r, "size") or -1) *)
        let size := request_get r "size" in
        match (if given size then py_int (default "" size) else Some (-1)) with
        | None => (w, Raise ValueError)
        | Some cluster_size =>
            if given consensus_plugin
               && bool_decide (default "" consensus_plugin ∉ CONSENSUS_PLUGINS)
            then (w, Ret (make_fail_response
                            (Some "Invalid consensus_plugin") None))
            else
              let condition :=
                if given consensus_plugin
                then <["consensus_plugin" := VStr (default "" consensus_plugin)]>
                       condition
                else condition in
              if given consensus_mode
                 && bool_decide (default "" consensus_mode ∉ CONSENSUS_MODES)
              then (w, Ret (make_fail_response
                              (Some "Invalid consensus_mode") None))
              else
                let condition :=
                  if given consensus_mode
                  then <["consensus_mode" := VStr (default "" consensus_mode)]>
                         condition
                  else condition in
                if bool_decide (0 ≤ cluster_size)
                   && bool_decide (cluster_size ∉ CLUSTER_SIZES)
                then (w, Ret (make_fail_response
                                (Some "Invalid cluster_size") None))
                else
                  let condition :=
                    if bool_decide (0 ≤ cluster_size)
                    then <["size" := VInt cluster_size]> condition
                    else condition in
                  let '(w', c) :=
                    handler_apply_cluster w u condition allow_multiple in
                  if py_not c
                  then (w', Ret (make_fail_response
                                   (Some ("No available res for " +:+ u)) None))
                  else (w', Ret (make_ok_response c))
        end
  end.

(** [cluster_actions()], on the request it reads. *)
Definition cluster_actions (w : world) (r : request)
  : world * result response :=
  let action := request_get r "action" in
  let lift (x : world * response) := (x.1, Ret x.2) in
  if bool_decide (action = Some "apply") then cluster_apply w r
  else if bool_decide (action = Some "release") then lift (cluster_release w r)
  else if bool_decide (action = Some "start") then lift (cluster_start w r)
  else if bool_decide (action = Some "stop") then lift (cluster_stop w r)
  else if bool_decide (action = Some "restart") then lift (cluster_restart w r)
  else (w, Ret (make_fail_response None (Some "Unknown action type"))).

End api.
End ClusterApi.

(** ** The call of [cluster_apply] into [ClusterHandler] *)



(** ** Names for what [delete] and [release_cluster] select *)

(** The record [delete] looks for, by collection and flags. *)
Definition delete_query (id col_name : string) (forced : bool) : query :=
  if bool_decide (col_name = "active") && negb forced
  then [("id", VStr id); ("user_id", VStr "")]
  else [("id", VStr id)].

Definition delete_collection (w : world) (col_name : string) : list doc :=
  if bool_decide (col_name = "active") then col_active w else col_released w.

(** The leases [release_cluster] selects from. *)
Definition release_query (u : string) : query :=
  [("user_id", VStr u); ("release_ts", VStr "")].

(** A request turned down before the handler is reached. *)
Ltac api_fails :=
  right; eexists; split; [reflexivity|];
  right; eexists; split; [reflexivity|]; solve [repeat constructor].

(** ** More concrete stores, and a concrete request *)
Module ScenarioMore.
Import Scenario.

(** The record of [leased_pool] is in the archive already. *)
Definition archived_twice : world :=
  World [cluster "a1" "c1" "h1" "alice" "7050"]
        [cluster "a1" "c1" "h1" "alice" "7050"]
        [host1_with ["a1"]] ∅.

(** A request is its parameters; [request_get] looks one up. *)
Definition params_get (r : gmap string string) (key : string)
  : option string := r !! key.

(** Handler operations to put behind the actions.  [cluster_apply] needs
    an [apply_cluster] that takes [condition] and [allow_multiple], which
    the one of [admin/modules/cluster.py] does not: [none_available] is a
    handler that takes them and has nothing to hand out.
    [release_cluster] is called with one positional argument, as
    [admin/modules/cluster.py] has it (at clock 0); [start], [stop] and
    [restart] are not part of that file. *)
Definition none_available (w : world) (_ : string) (_ : doc)
    (_ : option string) : world * option doc := (w, None).
Definition release_at_0 (w : world) (s : string) : world * bool :=
  ((release_cluster w s 0).1.1, (release_cluster w s 0).1.2).
Definition not_there (w : world) (_ : string) : world * bool := (w, false).

Definition plugins : list string := ["noops"; "pbft"].
Definition modes : list string := ["classic"; "batch"; "sieve"].
Definition sizes : list Z := [4; 6].

End ScenarioMore.

(** ** Facts about the store primitives *)
Section store_facts.
Implicit Types (q : query) (d : doc) (col : list doc).

Lemma find_one_Some q col d :
  find_one q col = Some d → d ∈ col ∧ matches q d.
Proof.
  unfold find_one. intros H. apply List.find_some in H as [Hin Hm].
  split; [by apply list_elem_of_In | by apply bool_decide_eq_true in Hm].
Qed.

Lemma find_one_None q col d :
  find_one q col = None → d ∈ col → ¬ matches q d.
Proof.
  unfold find_one. intros H Hin Hm.
  apply list_elem_of_In in Hin.
  pose proof (List.find_none _ _ H _ Hin) as Hf. simpl in Hf.
  by apply bool_decide_eq_false in Hf.
Qed.

Lemma find_one_cons q d col :
  find_one q (d :: col) =
  if decide (matches q d) then Some d else find_one q col.
Proof.
  unfold find_one. simpl. by destruct (decide (matches q d));
    [rewrite bool_decide_eq_true_2 | rewrite bool_decide_eq_false_2].
Qed.

(** The first match splits the collection; the update and the delete act
    at that position only. *)
Lemma find_one_split q col d (f : doc → doc) :
  find_one q col = Some d →
  ∃ pre post, col = pre ++ d :: post
              ∧ Forall (λ d', ¬ matches q d') pre
              ∧ matches q d
              ∧ update_first q f col = pre ++ f d :: post
              ∧ delete_one q col = pre ++ post.
Proof.
  induction col as [|d0 col IH]; [done|].
  rewrite find_one_cons. simpl. destruct (decide (matches q d0)) as [Hm|Hm].
  - intros [= ->]. by exists [], col.
  - intros H. destruct (IH H) as (pre & post & -> & Hpre & Hd & Hu & Hdel).
    exists (d0 :: pre), post. rewrite Hu, Hdel. by repeat split; [constructor|..].
Qed.

Lemma update_first_None q col (f : doc → doc) :
  find_one q col = None → update_first q f col = col.
Proof.
  induction col as [|d0 col IH]; [done|].
  rewrite find_one_cons. simpl. destruct (decide (matches q d0)); [done|].
  intros H. by rewrite IH.
Qed.

Lemma delete_one_None q col :
  find_one q col = None → delete_one q col = col.
Proof.
  induction col as [|d0 col IH]; [done|].
  rewrite find_one_cons. simpl. destruct (decide (matches q d0)); [done|].
  intros H. by rewrite IH.
Qed.

Lemma update_first_length q col (f : doc → doc) :
  length (update_first q f col) = length col.
Proof.
  induction col as [|d0 col IH]; [done|]. simpl.
  destruct (decide (matches q d0)); simpl; by rewrite ?IH.
Qed.

(** A document that does not match the query is left where it is. *)
Lemma update_first_lookup_other q col (f : doc → doc) (i : nat) d :
  col !! i = Some d → ¬ matches q d → update_first q f col !! i = Some d.
Proof.
  revert i. induction col as [|d0 col IH]; [done|]. intros i Hi Hm. simpl.
  destruct (decide (matches q d0)) as [Hm0|Hm0].
  - destruct i as [|i]; simpl in *; [naive_solver | done].
  - destruct i as [|i]; simpl in *; [done | by apply IH].
Qed.

(** A query that found nothing before the update can only find the
    document the update wrote. *)
Lemma find_one_update_first q q' col (f : doc → doc) d c :
  find_one q col = None →
  find_one q' col = Some d →
  find_one q (update_first q' f col) = Some c →
  c = f d.
Proof.
  induction col as [|d0 col IH]; [done|].
  rewrite !find_one_cons. simpl.
  destruct (decide (matches q d0)); [done|].
  destruct (decide (matches q' d0)) as [Hm|Hm].
  - intros Hnone [= ->]. rewrite find_one_cons.
    destruct (decide (matches q (f d))); [by intros [= <-]|].
    intros Hc. by rewrite Hnone in Hc.
  - intros Hnone Hd. rewrite find_one_cons.
    destruct (decide (matches q d0)); [done|]. by apply IH.
Qed.

Lemma matches_nonempty q d : matches q d → q ≠ [] → d ≠ ∅.
Proof.
  intros Hm Hq ->. destruct q as [|kv q]; [done|].
  apply Forall_cons_1 in Hm as [Hm _]. by rewrite lookup_empty in Hm.
Qed.

Lemma matches_singleton k v d : matches [(k, v)] d ↔ d !! k = Some v.
Proof.
  unfold matches. rewrite Forall_singleton. done.
Qed.

End store_facts.

(** ** [apply_cluster] *)
Section apply_facts.


Lemma with_active_same w : with_active w (col_active w) = w.
Proof. by destruct w. Qed.

Lemma py_not_matches q d : matches q d → q ≠ [] → py_not (Some d) = false.
Proof.
  intros Hm Hq. simpl. apply bool_decide_eq_false.
  by eapply matches_nonempty.
Qed.

(** The four ways through [apply_cluster]. *)
Lemma apply_cluster_cases w u now :
  (host_by_status "active" (col_host w) = None
   ∧ apply_cluster w u now = (w, None))
  ∨ (∃ h c, host_by_status "active" (col_host w) = Some h
            ∧ find_one (lease_query u h) (col_active w) = Some c
            ∧ apply_cluster w u now = (w, Some (projection c h)))
  ∨ (∃ h, host_by_status "active" (col_host w) = Some h
          ∧ find_one (lease_query u h) (col_active w) = None
          ∧ find_one idle_query (col_active w) = None
          ∧ apply_cluster w u now = (w, None))
  ∨ (∃ h d, host_by_status "active" (col_host w) = Some h
            ∧ find_one (lease_query u h) (col_active w) = None
            ∧ find_one idle_query (col_active w) = Some d
            ∧ apply_cluster w u now =
                (with_active w
                   (update_one idle_query (claim_patch u now) (col_active w)),
                 Some (projection (set_fields (claim_patch u now) d) h))).
Proof.
  unfold apply_cluster.
  destruct (host_by_status "active" (col_host w)) as [h|] eqn:Hh;
    [|by left].
  right. fold (lease_query u h). fold idle_query. fold (claim_patch u now).
  destruct (find_one (lease_query u h) (col_active w)) as [c|] eqn:Hc.
  - left. exists h, c. split_and!; [done..|].
    apply find_one_Some in Hc as [_ Hm].
    rewrite (py_not_matches _ _ Hm) by done. cbv iota beta.
    rewrite (py_not_matches _ _ Hm) by done.
    rewrite with_active_same.
    apply Forall_cons_1 in Hm as [Hu _]. simpl in Hu.
    by rewrite bool_decide_eq_true_2.
  - right. unfold find_one_and_update. simpl py_not. cbv iota.
    destruct (find_one idle_query (col_active w)) as [d|] eqn:Hd; simpl.
    + right. exists h, d. split_and!; [done..|].
      rewrite (bool_decide_eq_false_2 (_ = ∅)) by apply insert_non_empty.
      rewrite (bool_decide_eq_true_2 (_ !! _ = _)) by apply lookup_insert_eq.
      done.
    + left. exists h. split_and!; [done..|].
      unfold update_one. rewrite update_first_None by done.
      by rewrite with_active_same.
Qed.

(** C9.  [apply_cluster] changes the active collection in at most one
    place, and only where the record was idle ([user_id == ""]): a record
    whose [user_id] is the provisioning sentinel stays as it is, and any
    record that differs after the call was idle before it.  The released
    collection and the hosts are not touched. *)
Theorem apply_claims_only_idle w u now :
  let w' := (apply_cluster w u now).1 in
  col_released w' = col_released w
  ∧ col_host w' = col_host w
  ∧ length (col_active w') = length (col_active w)
  ∧ ∀ (i : nat) d, col_active w !! i = Some d →
      (d !! "user_id" = Some (VStr NOT_READY) →
       col_active w' !! i = Some d)
      ∧ (col_active w' !! i ≠ Some d → d !! "user_id" = Some (VStr "")).
Proof.
  assert (Hkeep : ∀ (i : nat) d, col_active w !! i = Some d →
            d !! "user_id" ≠ Some (VStr "") →
            update_one idle_query (claim_patch u now) (col_active w) !! i
            = Some d).
  { intros i d Hi Hne. apply update_first_lookup_other; [done|].
    unfold idle_query. by rewrite matches_singleton. }
  destruct (apply_cluster_cases w u now)
    as [[_ ->]|[(h & c & _ & _ & ->)|[(h & _ & _ & _ & ->)
        |(h & d0 & _ & _ & _ & ->)]]]; simpl;
    try (split_and!; [done..|]; intros i d Hi; split; [done|];
         intros Hne; by destruct Hne).
  split_and!; [done..| apply update_first_length |].
  intros i d Hi. split.
  - intros Hs. apply Hkeep; [done|]. by rewrite Hs.
  - intros Hne.
    destruct (decide (d !! "user_id" = Some (VStr ""))) as [|Hd]; [done|].
    destruct Hne. by apply Hkeep.
Qed.

(** The fresh claim in the body of [apply_cluster].  When the user has no
    lease on the host picked, the claim is the one [find_one_and_update]
    whose predicate is [user_id == ""]: its post-image is what is
    returned. *)
Lemma apply_fresh_claim_predicate w u now h a d' :
  host_by_status "active" (col_host w) = Some h →
  find_one (lease_query u h) (col_active w) = None →
  find_one_and_update [("user_id", VStr "")]
    [("user_id", VStr u); ("apply_ts", VTime now)] (col_active w)
    = (a, Some d') →
  apply_cluster w u now = (with_active w a, Some (projection d' h))
  ∧ ∃ d, find_one [("user_id", VStr "")] (col_active w) = Some d
         ∧ d !! "user_id" = Some (VStr "")
         ∧ d' = <["user_id" := VStr u]> (<["apply_ts" := VTime now]> d).
Proof.
  intros Hh Hlease Hfu. unfold find_one_and_update in Hfu.
  injection Hfu as <- Hd'.
  destruct (find_one [("user_id", VStr "")] (col_active w)) as [d|] eqn:Hd;
    [|done].
  injection Hd' as <-.
  destruct (apply_cluster_cases w u now)
    as [[Hn _]|[(h' & c & Hh' & Hc & _)|[(h' & Hh' & _ & Hi & _)
        |(h' & d0 & Hh' & _ & Hd0 & ->)]]];
    unfold idle_query in *; simplify_eq.
  split; [done|]. eexists. split_and!; [done| |done].
  apply find_one_Some in Hd as [_ Hm]. by apply matches_singleton in Hm.
Qed.

(** C7 (as the handler has it).  If, after a successful [apply_cluster],
    the user holds a lease ([user_id = u], [release_ts == ""]) on the host
    that [apply_cluster] picks, the first one with status ["active"], then
    a second [apply_cluster] returns the same cluster and changes
    nothing. *)
Theorem apply_twice_same_cluster w u now1 now2 w1 r1 h c :
  host_by_status "active" (col_host w) = Some h →
  apply_cluster w u now1 = (w1, Some r1) →
  find_one [("user_id", VStr u); ("release_ts", VStr "");
            ("host_id", VStr (h_id h))] (col_active w1) = Some c →
  apply_cluster w1 u now2 = (w1, Some r1).
Proof.
  intros Hh Happ Hc. fold (lease_query u h) in Hc.
  destruct (apply_cluster_cases w u now1)
    as [[Hn Heq]|[(h' & c' & Hh' & Hc' & Heq)|[(h' & Hh' & _ & _ & Heq)
        |(h' & d0 & Hh' & Hl & Hd0 & Heq)]]]; rewrite Heq in Happ;
    simplify_eq.
  - destruct (apply_cluster_cases w1 u now2)
      as [[Hn _]|[(h' & c'' & Hh' & Hc'' & ->)|[(h' & Hh' & Hl & _)
          |(h' & d1 & Hh' & Hl & _)]]]; by simplify_eq.
  - set (w1 := with_active w
                 (update_one idle_query (claim_patch u now1) (col_active w))).
    fold w1 in Hc. simpl in Hc.
    assert (c = set_fields (claim_patch u now1) d0) as ->.
    { by eapply find_one_update_first. }
    destruct (apply_cluster_cases w1 u now2)
      as [[Hn _]|[(h' & c'' & Hh' & Hc'' & ->)|[(h' & Hh' & Hl' & _)
          |(h' & d1 & Hh' & Hl' & _)]]];
      simpl in *; by simplify_eq.
Qed.

End apply_facts.

(** ** The keywords of [cluster_apply] at [apply_cluster] *)



(** ** [release_cluster] and its background task *)
Section release_facts.

(** C3 (as the handler has it).  [release_cluster] takes a user id: it
    selects the first active record whose [user_id] equals its argument
    and whose [release_ts] is [""], stamps [release_ts] with the clock in
    one [find_one_and_update], and fails exactly when there is no such
    record.  The [id] field plays no part. *)
Theorem release_selects_by_user_id w s now :
  let q := [("user_id", VStr s); ("release_ts", VStr "")] in
  ((release_cluster w s now).1.2 = false ↔
     ∀ d, d ∈ col_active w →
          ¬ (d !! "user_id" = Some (VStr s)
             ∧ d !! "release_ts" = Some (VStr "")))
  ∧ match find_one q (col_active w) with
    | Some d =>
        release_cluster w s now =
          (with_active w
             (update_one q [("release_ts", VTime now)] (col_active w)),
           true, Some (<["release_ts" := VTime now]> d))
    | None => release_cluster w s now = (w, false, None)
    end.
Proof.
  intros q.
  assert (Hm : ∀ d, matches q d ↔
            d !! "user_id" = Some (VStr s)
            ∧ d !! "release_ts" = Some (VStr "")).
  { intros d. unfold matches, q. rewrite !Forall_cons, Forall_nil. simpl.
    tauto. }
  unfold release_cluster, find_one_and_update. fold q.
  destruct (find_one q (col_active w)) as [d|] eqn:Hd; simpl.
  - rewrite (bool_decide_eq_false_2 (_ = ∅)) by apply insert_non_empty.
    rewrite lookup_insert_eq. simpl. split; [|done]. split; [done|].
    intros Hnone. apply find_one_Some in Hd as [Hin Hq].
    destruct (Hnone d Hin). by apply Hm.
  - unfold update_one. rewrite update_first_None by done.
    rewrite with_active_same. split; [|done]. split; [|done].
    intros _ d Hin Hd'. eapply find_one_None; [done..|]. by apply Hm.
Qed.

End release_facts.

Section recycle_facts.
Context (START : Z) (test_daemon : string → bool)
        (project_up : string → string → string → result (list string)).

(** The call [self.create(cluster_name, host_id, api_url=...)] names a
    parameter that [create] does not have. *)
Lemma create_rejects_api_url :
  bind_keywords create_params ["api_url"] = Raise TypeError.
Proof. reflexivity. Qed.

(** The background task never gets as far as the body of [create]: it
    stops with an exception once the old record is deleted, or before. *)
Lemma delete_recreate_work_raises c w now oid now' :
  ∃ e, (delete_recreate_work START test_daemon project_up
          c w now oid now').2 = Raise e
       ∧ ((delete_recreate_work START test_daemon project_up
             c w now oid now').1 = w
          ∨ ∃ cid, c !! "id" = Some (VStr cid)
                   ∧ (delete_recreate_work START test_daemon project_up
                        c w now oid now').1
                     = (delete w cid "active" true true now).1).
Proof.
  unfold delete_recreate_work. rewrite create_rejects_api_url.
  destruct (c !! "id") as [[cid| | | |]|]; simpl;
    try (exists TypeError; split; [done | by left]).
  destruct (c !! "name") as [[nm| | | |]|]; simpl;
    exists TypeError; (split; [done | right; by exists cid]).
Qed.

End recycle_facts.

(** ** [delete] *)
Section delete_facts.


Lemma stamp_release_host d now :
  stamp_release d now !! "host_id" = d !! "host_id".
Proof.
  unfold stamp_release. destruct (truthy _); [done|].
  by rewrite lookup_insert_ne.
Qed.

(** A forced [delete] in the active collection, once the record is
    found: what it leaves in each collection. *)
Lemma delete_active_forced w id record now d :
  find_one [("id", VStr id)] (col_active w) = Some d →
  ∃ w', delete w id "active" record true now = (w', true)
    ∧ col_active w' = delete_one [("id", VStr id)] (col_active w)
    ∧ col_released w' =
        (if record
         then match insert_one (stamp_release d now) (col_released w) with
              | Ret r => r
              | Raise _ => col_released w
              end
         else col_released w)
    ∧ col_host w' =
        match host_by_id (d !! "host_id") (col_host w) with
        | Some h =>
            host_set_clusters (d !! "host_id")
              (if decide (id ∈ h_clusters h)
               then py_remove id (h_clusters h) else h_clusters h)
              (col_host w)
        | None => col_host w
        end.
Proof.
  intros Hd. unfold delete.
  rewrite (bool_decide_eq_true_2 ("active" = "active")) by done.
  cbn [andb negb]. rewrite Hd.
  rewrite py_not_matches with (q := [("id", VStr id)])
    by (done || by apply find_one_Some in Hd as [_ ?]).
  fold (stamp_release d now).
  set (w0 := match host_by_id (d !! "host_id") (col_host w) with
             | Some h => _ | None => _ end).
  assert (Hw0 : col_active w0 = col_active w
                ∧ col_released w0 = col_released w
                ∧ col_host w0 = col_host w).
  { unfold w0. destruct (host_by_id _ _); [|done].
    by destruct (default _ _). }
  destruct Hw0 as (Ha & Hr & Hh). clearbody w0.
  destruct record.
  - destruct (insert_one (stamp_release d now) (col_released w0))
      as [r|e] eqn:Hins; rewrite Hr in Hins; rewrite Hins;
      rewrite stamp_release_host; simpl; rewrite Hh;
      destruct (host_by_id (d !! "host_id") (col_host w)); simpl;
      (eexists; split; [reflexivity|]; simpl; rewrite ?Ha, ?Hr, ?Hh; done).
  - simpl. rewrite Hh.
    destruct (host_by_id (d !! "host_id") (col_host w)); simpl;
      (eexists; split; [reflexivity|]; simpl; rewrite ?Ha, ?Hr, ?Hh; done).
Qed.

End delete_facts.

Section store_append_facts.
Implicit Types (q : query) (d : doc) (col : list doc).


Lemma find_one_snoc q col d :
  Forall (λ d', ¬ matches q d') col → matches q d →
  find_one q (col ++ [d]) = Some d
  ∧ (∀ f, update_first q f (col ++ [d]) = col ++ [f d])
  ∧ delete_one q (col ++ [d]) = col.
Proof.
  intros Hcol Hd. induction Hcol as [|d0 col Hd0 _ (IH1 & IH2 & IH3)].
  - cbn [app update_first delete_one]. rewrite find_one_cons.
    split_and!; [|intros f|]; by rewrite decide_True.
  - cbn [app update_first delete_one]. rewrite find_one_cons.
    split_and!; [|intros f|]; rewrite decide_False by done;
      by rewrite ?IH2, ?IH3.
Qed.

Lemma host_by_id_set_clusters i cl hs h :
  host_by_id i hs = Some h →
  host_by_id i (host_set_clusters i cl hs)
  = Some (Host (h_id h) (h_daemon_url h) (h_status h) (h_capacity h) cl).
Proof.
  destruct i as [[i| | | |]|]; try done. simpl.
  induction hs as [|h0 hs IH]; [done|]. simpl.
  destruct (decide (h_id h0 = i)) as [Heq|Hne].
  - rewrite bool_decide_eq_true_2 by done. intros [= ->].
    rewrite bool_decide_eq_true_2 by (by rewrite Heq). simpl.
    by rewrite bool_decide_eq_true_2.
  - rewrite bool_decide_eq_false_2 by done. intros Hh.
    rewrite bool_decide_eq_false_2 by congruence. simpl.
    rewrite bool_decide_eq_false_2 by done. by apply IH.
Qed.

Lemma host_set_clusters_twice i cl cl' hs :
  host_set_clusters i cl' (host_set_clusters i cl hs)
  = host_set_clusters i cl' hs.
Proof.
  induction hs as [|h0 hs IH]; [done|]. simpl.
  destruct (bool_decide (Some (VStr (h_id h0)) = i)) eqn:Hb; simpl;
    rewrite Hb; [done | by rewrite IH].
Qed.

Lemma host_set_clusters_same i hs h :
  host_by_id i hs = Some h → host_set_clusters i (h_clusters h) hs = hs.
Proof.
  destruct i as [[i| | | |]|]; try done. simpl.
  induction hs as [|h0 hs IH]; [done|]. simpl.
  destruct (decide (h_id h0 = i)) as [Heq|Hne].
  - rewrite bool_decide_eq_true_2 by done. intros [= ->].
    rewrite bool_decide_eq_true_2 by (by rewrite Heq). by destruct h.
  - rewrite bool_decide_eq_false_2 by done. intros Hh.
    rewrite bool_decide_eq_false_2 by congruence. by rewrite IH.
Qed.

Lemma py_remove_snoc x l : x ∉ l → py_remove x (l ++ [x]) = l.
Proof.
  induction l as [|y l IH]; simpl.
  - by rewrite bool_decide_eq_true_2.
  - intros Hx. apply not_elem_of_cons in Hx as [Hne Hx].
    rewrite bool_decide_eq_false_2 by done. by rewrite IH.
Qed.

Lemma py_remove_absent x l : x ∉ l → py_remove x l = l.
Proof.
  induction l as [|y l IH]; [done|]. simpl.
  intros Hx. apply not_elem_of_cons in Hx as [Hne Hx].
  rewrite bool_decide_eq_false_2 by done. by rewrite IH.
Qed.

Lemma fresh_oid_no_id oid col :
  fresh_oid oid col → Forall (λ d, ¬ matches [("id", VStr oid)] d) col.
Proof.
  intros H. eapply Forall_impl; [exact H|].
  intros d [_ Hid]. by rewrite matches_singleton.
Qed.

Lemma fresh_oid_no__id oid col :
  fresh_oid oid col → Forall (λ d, ¬ matches [("_id", VOid oid)] d) col.
Proof.
  intros H. eapply Forall_impl; [exact H|].
  intros d [Hid _]. by rewrite matches_singleton.
Qed.


Lemma inserted_record_id name host_id user_id api_url oid now :
  matches [("id", VStr oid)]
          (inserted_record name host_id user_id api_url oid now).
Proof. apply matches_singleton, lookup_insert_eq. Qed.

(** The forced delete that [create] runs when the backend start fails
    takes the provisioning record out again and archives nothing. *)
Lemma delete_provisioning w name host_id user_id api_url oid daemon now :
  fresh_oid oid (col_active w) →
  ∃ w', delete (provisioning w name host_id user_id api_url oid daemon now)
               oid "active" false true now = (w', true)
        ∧ col_active w' = col_active w
        ∧ col_released w' = col_released w.
Proof.
  intros Hfresh.
  destruct (find_one_snoc [("id", VStr oid)] (col_active w)
              (inserted_record name host_id user_id api_url oid now)
              (fresh_oid_no_id _ _ Hfresh)
              (inserted_record_id _ _ _ _ _ _)) as (Hfind & _ & Hdel).
  destruct (delete_active_forced
              (provisioning w name host_id user_id api_url oid daemon now)
              oid false now _ Hfind) as (w' & Hrun & Ha & Hr & _).
  exists w'. split_and!; [done| |done].
  rewrite Ha. exact Hdel.
Qed.

End store_append_facts.

(** ** [create] *)
Section create_facts.
Context (START : Z) (test_daemon : string → bool)
        (project_up : string → string → string → result (list string)).

(** [create] past its three guards, with a fresh id. *)
Lemma create_run w name host_id api_port user_id oid now h :
  host_by_id (Some (VStr host_id)) (col_host w) = Some h →
  Z.of_nat (length (h_clusters h)) < h_capacity h →
  test_daemon (h_daemon_url h) = true →
  fresh_oid oid (col_active w) →
  let api_url := _gen_api_url START w host_id api_port in
  let w2 := provisioning w name host_id user_id api_url oid
                         (h_daemon_url h) now in
  create START test_daemon project_up w name host_id api_port user_id
         oid now =
  match project_up oid (last_seg (split ":"%char api_url))
                   (h_daemon_url h) with
  | Raise _ | Ret [] =>
      ((delete w2 oid "active" false true now).1, Ret None)
  | Ret containers =>
      (World (col_active w
                ++ [set_fields [("node_containers", VList containers);
                                ("user_id", VStr user_id)]
                      (inserted_record name host_id user_id api_url oid
                                       now)])
             (col_released w)
             (host_set_clusters (Some (VStr host_id))
                                (h_clusters h ++ [oid]) (col_host w))
             (environ w2),
       Ret (Some oid))
  end.
Proof.
  intros Hh Hcap Hping Hfresh api_url w2. unfold create.
  rewrite Hh. rewrite decide_False by lia. rewrite Hping. cbn [negb].
  fold api_url. unfold insert_one. rewrite lookup_insert_eq.
  rewrite decide_False; last first.
  { rewrite Exists_exists. intros (d & Hin & Hd).
    unfold fresh_oid in Hfresh. rewrite Forall_forall in Hfresh.
    by destruct (Hfresh d Hin). }
  unfold update_one.
  pose proof (find_one_snoc [("_id", VOid oid)] (col_active w)
                (<["_id" := VOid oid]>
                   {[ "name" := VStr name;
                      "user_id" := VStr (if decide (user_id = "")
                                         then NOT_READY else user_id);
                      "api_url" := VStr api_url;
                      "host_id" := VStr host_id;
                      "create_ts" := VTime now;
                      "release_ts" := VStr "" ]})
                (fresh_oid_no__id _ _ Hfresh)) as (_ & Hupd & _).
  { apply matches_singleton, lookup_insert_eq. }
  rewrite Hupd. cbn [set_fields foldr fst snd].
  fold (inserted_record name host_id user_id api_url oid now).
  unfold _compose_start_project. cbn [with_active with_environ col_active
    col_released col_host environ].
  fold (provisioning w name host_id user_id api_url oid (h_daemon_url h) now).
  fold w2.
  destruct (project_up oid (last_seg (split ":"%char api_url))
              (h_daemon_url h)) as [[|c cs]|e]; [done| |done].
  rewrite Hh.
  cbn [with_host with_active with_environ col_active col_released col_host
       environ].
  pose proof (find_one_snoc [("_id", VOid oid)] (col_active w)
                (inserted_record name host_id user_id api_url oid now)
                (fresh_oid_no__id _ _ Hfresh)) as (_ & Hupd' & _).
  { apply matches_singleton. unfold inserted_record.
    rewrite lookup_insert_ne by done. apply lookup_insert_eq. }
  unfold update_one. rewrite Hupd'. done.
Qed.

End create_facts.

Section create_theorems.
Context (START : Z) (test_daemon : string → bool)
        (project_up : string → string → string → result (list string)).


(** C5.  With an id new to the active collection, a [create] that
    returns [None] leaves the active and the released collection as they
    were.  In particular, when the host exists, has room and answers, and
    the backend start raises or yields no container, [create] runs a
    forced [delete] without archiving on the record it had inserted, that
    delete succeeds, and [create] returns [None]. *)
Theorem create_all_or_nothing w name host_id api_port user_id oid now :
  fresh_oid oid (col_active w) →
  (∀ w', create START test_daemon project_up w name host_id api_port
                user_id oid now = (w', Ret None) →
         col_active w' = col_active w ∧ col_released w' = col_released w)
  ∧ (∀ h, host_by_id (Some (VStr host_id)) (col_host w) = Some h →
          Z.of_nat (length (h_clusters h)) < h_capacity h →
          test_daemon (h_daemon_url h) = true →
          let api_url := _gen_api_url START w host_id api_port in
          (∀ c cs, project_up oid (last_seg (split ":"%char api_url))
                              (h_daemon_url h) ≠ Ret (c :: cs)) →
          ∃ w', delete (provisioning w name host_id user_id api_url oid
                                     (h_daemon_url h) now)
                       oid "active" false true now = (w', true)
                ∧ create START test_daemon project_up w name host_id
                         api_port user_id oid now = (w', Ret None)
                ∧ col_active w' = col_active w
                ∧ col_released w' = col_released w).
Proof.
  intros Hfresh.
  assert (Hrun : ∀ h, host_by_id (Some (VStr host_id)) (col_host w) = Some h →
            Z.of_nat (length (h_clusters h)) < h_capacity h →
            test_daemon (h_daemon_url h) = true →
            ∀ w' r, create START test_daemon project_up w name host_id
                      api_port user_id oid now = (w', Ret r) →
            (r = None ∧ ∃ ok, delete (provisioning w name host_id user_id
                                 (_gen_api_url START w host_id api_port)
                                 oid (h_daemon_url h) now)
                                oid "active" false true now = (w', ok))
            ∨ ∃ c cs, project_up oid
                        (last_seg (split ":"%char
                           (_gen_api_url START w host_id api_port)))
                        (h_daemon_url h) = Ret (c :: cs) ∧ r = Some oid).
  { intros h Hh Hcap Hping w' r.
    rewrite (create_run START test_daemon project_up _ _ _ _ _ _ _ h)
      by done.
    destruct (project_up _ _ _) as [[|c cs]|e]; intros [= <- <-];
      try (left; split; [done|];
           by destruct (delete _ _ _ _ _ _) as [? ok]; exists ok).
    right. by exists c, cs. }
  split.
  - intros w' Hc.
    destruct (host_by_id (Some (VStr host_id)) (col_host w)) as [h|] eqn:Hh;
      [|unfold create in Hc; rewrite Hh in Hc; by simplify_eq].
    destruct (decide (h_capacity h ≤ Z.of_nat (length (h_clusters h))))
      as [Hfull|Hroom];
      [unfold create in Hc; rewrite Hh, decide_True in Hc by done;
       by simplify_eq|].
    destruct (test_daemon (h_daemon_url h)) eqn:Hping;
      [|unfold create in Hc;
        rewrite Hh, decide_False, Hping in Hc by done; simpl in Hc;
      by simplify_eq].
    destruct (Hrun h eq_refl ltac:(lia) Hping w' None Hc)
      as [[_ [ok Hdel]]|(c & cs & _ & ?)]; [|done].
    destruct (delete_provisioning w name host_id user_id
                (_gen_api_url START w host_id api_port) oid
                (h_daemon_url h) now Hfresh) as (w'' & Hd & Ha & Hr).
    rewrite Hd in Hdel. by simplify_eq.
  - intros h Hh Hcap Hping api_url Hup.
    destruct (delete_provisioning w name host_id user_id api_url oid
                (h_daemon_url h) now Hfresh) as (w' & Hd & Ha & Hr).
    exists w'. split_and!; [done| |done..].
    rewrite (create_run START test_daemon project_up _ _ _ _ _ _ _ h)
      by done.
    fold api_url. rewrite Hd.
    destruct (project_up _ _ _) as [[|c cs]|e] eqn:Hp; [done| |done].
    by destruct (Hup c cs).
Qed.

Lemma gen_api_url_malformed w host_id api_port h :
  host_by_id (Some (VStr host_id)) (col_host w) = Some h →
  length (split ":"%char (h_daemon_url h)) ≠ 3%nat →
  _gen_api_url START w host_id api_port = "".
Proof.
  intros Hh Hsegs. unfold _gen_api_url. rewrite Hh.
  by rewrite decide_True.
Qed.

(** A daemon address that does not split into three segments does not
    stop [create]: with the host in place, room on it, the daemon
    answering and the backend starting containers on the empty port,
    [create] returns the new id and leaves a record whose [api_url] is
    the empty string, attached to the host. *)
Lemma create_accepts_malformed_daemon_url w name host_id api_port user_id
    oid now h c cs :
  host_by_id (Some (VStr host_id)) (col_host w) = Some h →
  length (split ":"%char (h_daemon_url h)) ≠ 3%nat →
  Z.of_nat (length (h_clusters h)) < h_capacity h →
  test_daemon (h_daemon_url h) = true →
  fresh_oid oid (col_active w) →
  project_up oid "" (h_daemon_url h) = Ret (c :: cs) →
  ∃ w' d, create START test_daemon project_up w name host_id api_port
                 user_id oid now = (w', Ret (Some oid))
          ∧ col_active w' = col_active w ++ [d]
          ∧ d !! "id" = Some (VStr oid)
          ∧ d !! "api_url" = Some (VStr "")
          ∧ col_host w' = host_set_clusters (Some (VStr host_id))
                            (h_clusters h ++ [oid]) (col_host w).
Proof.
  intros Hh Hsegs Hcap Hping Hfresh Hup.
  rewrite (create_run START test_daemon project_up _ _ _ _ _ _ _ h) by done.
  rewrite (gen_api_url_malformed _ _ _ h) by done.
  change (last_seg (split ":"%char "")) with "". rewrite Hup.
  eexists _, _. split_and!; reflexivity.
Qed.

(** C8.  After a [create] that returned the id [X] (an id new to both
    collections and to the host lists), a forced [delete] of [X] with
    archiving succeeds and leaves [X] in the released collection, out of
    the active collection and out of the host's cluster list, which is
    one shorter than after the [create]. *)
Theorem create_delete_round_trip w name host_id api_port user_id oid now
    now' w1 X :
  fresh_oid oid (col_active w) →
  Forall (λ d, d !! "_id" ≠ Some (VOid oid)) (col_released w) →
  Forall (λ h, oid ∉ (h_clusters h)) (col_host w) →
  create START test_daemon project_up w name host_id api_port user_id
         oid now = (w1, Ret (Some X)) →
  ∃ w2 h1 h2,
    delete w1 X "active" true true now' = (w2, true)
    ∧ (∃ d, d ∈ col_released w2 ∧ d !! "id" = Some (VStr X))
    ∧ (∀ d, d ∈ col_active w2 → d !! "id" ≠ Some (VStr X))
    ∧ host_by_id (Some (VStr host_id)) (col_host w1) = Some h1
    ∧ host_by_id (Some (VStr host_id)) (col_host w2) = Some h2
    ∧ (X ∈ h_clusters h1)
    ∧ (X ∉ h_clusters h2)
    ∧ length (h_clusters h1) = S (length (h_clusters h2)).
Proof.
  intros Hfresh Hrel Hhosts Hc.
  destruct (host_by_id (Some (VStr host_id)) (col_host w)) as [h|] eqn:Hh;
    [|unfold create in Hc; rewrite Hh in Hc; by simplify_eq].
  destruct (decide (h_capacity h ≤ Z.of_nat (length (h_clusters h))))
    as [Hfull|Hroom];
    [unfold create in Hc; rewrite Hh, decide_True in Hc by done;
     by simplify_eq|].
  destruct (test_daemon (h_daemon_url h)) eqn:Hping;
    [|unfold create in Hc;
      rewrite Hh, decide_False, Hping in Hc by done; simpl in Hc;
      by simplify_eq].
  rewrite (create_run START test_daemon project_up _ _ _ _ _ _ _ h) in Hc
    by (done || lia).
  destruct (project_up _ _ _) as [[|c cs]|e]; [done| |done].
  injection Hc as <- <-.
  set (api_url := _gen_api_url START w host_id api_port).
  set (d1 := set_fields [("node_containers", VList (c :: cs));
                         ("user_id", VStr user_id)]
               (inserted_record name host_id user_id api_url oid now)).
  set (w1 := World _ _ _ _).
  assert (Hoid : oid ∉ h_clusters h).
  { rewrite Forall_forall in Hhosts. apply Hhosts.
    simpl in Hh. apply List.find_some in Hh as [Hin _].
    by apply list_elem_of_In. }
  assert (Hd1id : matches [("id", VStr oid)] d1).
  { apply matches_singleton. unfold d1. cbn [set_fields foldr fst snd].
    rewrite !lookup_insert_ne by done. apply lookup_insert_eq. }
  assert (Hd1host : d1 !! "host_id" = Some (VStr host_id)).
  { by vm_compute. }
  assert (Hd1rel : d1 !! "release_ts" = Some (VStr "")).
  { by vm_compute. }
  assert (Hd1oid : stamp_release d1 now' !! "_id" = Some (VOid oid)).
  { unfold stamp_release. rewrite Hd1rel. by vm_compute. }
  destruct (find_one_snoc [("id", VStr oid)] (col_active w) d1
              (fresh_oid_no_id _ _ Hfresh) Hd1id) as (Hfind & _ & Hdel).
  destruct (delete_active_forced w1 oid true now' d1 Hfind)
    as (w2 & Hrun & Ha & Hr & Hhs).
  unfold w1 in Ha, Hr, Hhs.
  cbn [col_active col_released col_host] in Ha, Hr, Hhs.
  change (col_active w2 = delete_one [("id", VStr oid)] (col_active w ++ [d1]))
    in Ha.
  rewrite Hdel in Ha. rewrite Hd1host in Hhs.
  rewrite (host_by_id_set_clusters _ _ _ h Hh) in Hhs.
  cbn [h_clusters] in Hhs.
  rewrite decide_True in Hhs by (apply elem_of_app; right; by left).
  rewrite py_remove_snoc, host_set_clusters_twice in Hhs by done.
  rewrite (host_set_clusters_same _ _ h Hh) in Hhs.
  unfold insert_one in Hr. rewrite Hd1oid in Hr.
  rewrite decide_False in Hr; last first.
  { rewrite Exists_exists. intros (d & Hin & Hd).
    rewrite Forall_forall in Hrel. by destruct (Hrel d Hin). }
  exists w2, (Host (h_id h) (h_daemon_url h) (h_status h) (h_capacity h)
                   (h_clusters h ++ [oid])), h.
  split_and!.
  - done.
  - exists (stamp_release d1 now'). split.
    + rewrite Hr. apply elem_of_app. right. by left.
    + unfold stamp_release. rewrite Hd1rel. cbn [truthy].
      rewrite bool_decide_eq_false_2 by (by intros []).
      rewrite lookup_insert_ne by done.
      by apply matches_singleton in Hd1id.
  - intros d Hin. rewrite Ha in Hin.
    unfold fresh_oid in Hfresh. rewrite Forall_forall in Hfresh.
    by destruct (Hfresh d Hin).
  - by apply host_by_id_set_clusters.
  - by rewrite Hhs.
  - cbn [h_clusters]. apply elem_of_app. right. by left.
  - done.
  - cbn [h_clusters]. rewrite length_app. simpl. lia.
Qed.

End create_theorems.

(** ** The window of port candidates *)
Section window_facts.

Lemma seqZ_sorted (s n : Z) : StronglySorted Z.lt (seqZ s n).
Proof.
  destruct (decide (n ≤ 0)) as [Hn|Hn].
  { rewrite seqZ_nil by done. constructor. }
  rewrite <- (Z2Nat.id n) by lia.
  induction (Z.to_nat n) as [|k IH]; [constructor|].
  rewrite seqZ_S. apply StronglySorted_app. split_and!; [|done|].
  - intros x1 x2 Hx1 Hx2. apply elem_of_seqZ in Hx1.
    apply list_elem_of_singleton in Hx2. lia.
  - repeat constructor.
Qed.

Lemma filter_sorted (P : Z → Prop) `{!∀ x, Decision (P x)} (l : list Z) :
  StronglySorted Z.lt l → StronglySorted Z.lt (filter P l).
Proof.
  induction 1 as [|x l Hl IH Hx]; [constructor|].
  rewrite filter_cons. destruct (decide (P x)); [|done].
  constructor; [done|].
  rewrite Forall_forall in Hx. apply Forall_forall.
  intros y Hy. apply list_elem_of_filter in Hy as [_ Hy]. by apply Hx.
Qed.

(** Among [len(used) + n] distinct candidates at least [n] are free. *)
Lemma free_candidates_enough (used : list Z) (s m : Z) (n : nat) :
  Z.of_nat (length used) + Z.of_nat n ≤ m →
  (n ≤ length (filter (λ item, item ∉ used) (seqZ s m)))%nat.
Proof.
  intros Hm.
  pose proof (filter_app_complement (λ item, item ∉ used) (seqZ s m))
    as Hperm.
  apply Permutation_length in Hperm.
  rewrite length_app, length_seqZ in Hperm.
  assert (length (filter (λ x : Z, ¬ (x ∉ used)) (seqZ s m)) ≤ length used)%nat.
  { apply submseteq_length, NoDup_submseteq.
    - apply NoDup_filter, NoDup_seqZ.
    - intros x Hx. apply list_elem_of_filter in Hx as [Hx _].
      by destruct (decide (x ∈ used)). }
  lia.
Qed.

(** The first [n] free candidates of a window that holds at least [n]
    of them are the [n] smallest free ports from [s] on. *)
Lemma take_free_smallest (used : list Z) (s m : Z) (n : nat) :
  (n ≤ length (filter (λ item, item ∉ used) (seqZ s m)))%nat →
  let l := take n (filter (λ item, item ∉ used) (seqZ s m)) in
  length l = n
  ∧ StronglySorted Z.lt l
  ∧ (∀ p, p ∈ l → s ≤ p ∧ p ∉ used)
  ∧ (∀ p q, p ∈ l → s ≤ q → q ∉ used → q ∉ l → p < q).
Proof.
  intros Hlen l.
  set (F := filter (λ item, item ∉ used) (seqZ s m)) in *.
  assert (HF : StronglySorted Z.lt (take n F ++ drop n F)).
  { rewrite take_drop. apply filter_sorted, seqZ_sorted. }
  assert (Hin : ∀ p, p ∈ l → p ∈ F).
  { intros p Hp. rewrite <- (take_drop n F). apply elem_of_app. by left. }
  split_and!.
  - unfold l. rewrite length_take. lia.
  - by apply StronglySorted_app_1_l in HF.
  - intros p Hp. apply Hin, list_elem_of_filter in Hp as [Hfree Hp].
    apply elem_of_seqZ in Hp. split; [lia | done].
  - intros p q Hp Hq Hfree Hnot.
    destruct (decide (q < s + m)) as [Hlt|Hge].
    + assert (Hq' : q ∈ F).
      { apply list_elem_of_filter. split; [done|].
        apply elem_of_seqZ. lia. }
      rewrite <- (take_drop n F) in Hq'.
      apply elem_of_app in Hq' as [Hq'|Hq']; [done|].
      by eapply StronglySorted_app_1_elem_of.
    + apply Hin, list_elem_of_filter in Hp as [_ Hp].
      apply elem_of_seqZ in Hp. lia.
Qed.

End window_facts.

(** ** [find_free_api_ports] *)
Section port_facts.
Context (START : Z) (py_int : string → option Z).

(** C4.  For a host that exists, whose daemon address has three
    segments and whose active clusters all carry a port ([used], in
    store order): with [n >= 1] and [len(used) + n < 64000] the result is
    the list of the [n] smallest integers from [CLUSTER_API_PORT_START]
    on that are not in [used], in increasing order; with [n = 0] it is
    the empty list; with [len(used) + n >= 64000] it is the empty list,
    which is how the function fails. *)
Theorem find_free_api_ports_smallest_free w host_id n h used :
  host_by_id (Some (VStr host_id)) (col_host w) = Some h →
  length (split ":"%char (h_daemon_url h)) = 3%nat →
  ports_of py_int (find [("host_id", VStr host_id)] (col_active w))
    = Ret used →
  (1 ≤ n → Z.of_nat (length used) + n < 64000 →
   ∃ l, find_free_api_ports START py_int w host_id n = Ret (PortList l)
        ∧ length l = Z.to_nat n
        ∧ StronglySorted Z.lt l
        ∧ (∀ p, p ∈ l → START ≤ p ∧ p ∉ used)
        ∧ (∀ p q, p ∈ l → START ≤ q → q ∉ used → q ∉ l → p < q))
  ∧ (n = 0 →
     find_free_api_ports START py_int w host_id n = Ret (PortList []))
  ∧ (1 ≤ n → 64000 ≤ Z.of_nat (length used) + n →
     find_free_api_ports START py_int w host_id n = Ret (PortList [])).
Proof.
  intros Hh Hsegs Hused. unfold find_free_api_ports. split_and!.
  - intros Hn Hroom. rewrite decide_False by lia. rewrite Hh.
    rewrite decide_False by (by intros ?). rewrite Hused.
    rewrite decide_False by lia.
    change (λ i, START + i) with (Z.add START).
    rewrite fmap_add_seqZ, Z.add_0_r.
    eexists. split; [reflexivity|].
    apply take_free_smallest, free_candidates_enough. lia.
  - intros ->. by rewrite decide_True.
  - intros Hn Hfull. rewrite decide_False by lia. rewrite Hh.
    rewrite decide_False by (by intros ?). rewrite Hused.
    by rewrite decide_True.
Qed.

(** C10 (as the handler has it).  The guard on [number] comes first: for
    [number <= 0] the result is the empty list whatever the host.  For
    [number >= 1] the result is the string [""] when the host record is
    absent or its daemon address does not have three segments, a list
    when every active cluster of the host carries a port, and the
    exception of [int] otherwise. *)
Theorem find_free_api_ports_result_type w host_id n :
  (n ≤ 0 →
   find_free_api_ports START py_int w host_id n = Ret (PortList []))
  ∧ (0 < n → host_by_id (Some (VStr host_id)) (col_host w) = None →
     find_free_api_ports START py_int w host_id n = Ret EmptyStr)
  ∧ (0 < n → ∀ h,
     host_by_id (Some (VStr host_id)) (col_host w) = Some h →
     (length (split ":"%char (h_daemon_url h)) ≠ 3%nat →
      find_free_api_ports START py_int w host_id n = Ret EmptyStr)
     ∧ (length (split ":"%char (h_daemon_url h)) = 3%nat →
        match ports_of py_int
                (find [("host_id", VStr host_id)] (col_active w)) with
        | Ret used =>
            ∃ l, find_free_api_ports START py_int w host_id n
                 = Ret (PortList l)
        | Raise e =>
            find_free_api_ports START py_int w host_id n = Raise e
        end)).
Proof.
  unfold find_free_api_ports. split_and!.
  - intros Hn. by rewrite decide_True.
  - intros Hn Hh. rewrite decide_False by lia. by rewrite Hh.
  - intros Hn h Hh. rewrite decide_False by lia. rewrite Hh. split.
    + intros Hsegs. by rewrite decide_True.
    + intros Hsegs. rewrite decide_False by (by intros ?).
      destruct (ports_of _ _) as [used|e]; [|done].
      destruct (decide (64000 ≤ _)); eauto.
Qed.

End port_facts.

(** ** The handler on concrete stores *)
Section scenarios.
Import Scenario.


(** The fresh claim on [sized_pool]. *)
Lemma apply_fresh_claim_predicate_witness :
  apply_cluster sized_pool "alice" 10
  = (with_active sized_pool [sized_claimed],
     Some (projection sized_claimed (host1_with ["a1"])))
  ∧ ∃ d, find_one [("user_id", VStr "")] (col_active sized_pool) = Some d
         ∧ d !! "user_id" = Some (VStr "")
         ∧ sized_claimed
           = <["user_id" := VStr "alice"]> (<["apply_ts" := VTime 10]> d).
Proof.
  apply (apply_fresh_claim_predicate sized_pool "alice" 10
           (host1_with ["a1"])
           [sized_claimed] sized_claimed);
    vm_compute; reflexivity.
Defined.

(** C3, counterexample.  The active record with id ["a1"] is leased and
    not released, yet releasing ["a1"] fails: the argument is compared
    with [user_id]. *)
Lemma release_by_cluster_id_fails :
  ¬ (∀ w cluster_id now,
       (release_cluster w cluster_id now).1.2 = false ↔
       ¬ ∃ d, d ∈ col_active w
              ∧ d !! "id" = Some (VStr cluster_id)
              ∧ d !! "release_ts" = Some (VStr "")).
Proof.
  intros H. apply (H leased_pool "a1" 30); [vm_compute; reflexivity|].
  exists (cluster "a1" "c1" "h1" "alice" "7050").
  split_and!; [by left | vm_compute; reflexivity..].
Qed.

(** C3, witness: releasing by user id on [leased_pool]. *)
Lemma release_selects_by_user_id_witness :
  release_cluster leased_pool "alice" 30
  = (with_active leased_pool
       (update_one [("user_id", VStr "alice"); ("release_ts", VStr "")]
                   [("release_ts", VTime 30)] (col_active leased_pool)),
     true,
     Some (<["release_ts" := VTime 30]>
             (cluster "a1" "c1" "h1" "alice" "7050"))).
Proof.
  exact (proj2 (release_selects_by_user_id leased_pool "alice" 30)).
Defined.

(** C7, counterexample.  With two active hosts, the first [apply_cluster]
    claims the cluster on the second host; the lookup of the second call
    is tied to the first host, misses that lease and claims another
    cluster. *)
Lemma apply_twice_other_host :
  ¬ (∀ w u now1 now2 w1 r1,
       apply_cluster w u now1 = (w1, Some r1) →
       (∃ d, d ∈ col_active w1
             ∧ d !! "user_id" = Some (VStr u)
             ∧ d !! "release_ts" = Some (VStr "")) →
       ∃ r2, apply_cluster w1 u now2 = (w1, Some r2)
             ∧ r2 !! "id" = r1 !! "id").
Proof.
  intros H.
  destruct (H two_hosts "alice" 10 20
              (apply_cluster two_hosts "alice" 10).1
              (projection
                 (<["user_id" := VStr "alice"]>
                    (<["apply_ts" := VTime 10]>
                       (cluster "a1" "c1" "h2" "" "7050")))
                 (host1_with ["a2"])))
    as (r2 & Happ & Hid).
  - vm_compute. reflexivity.
  - eexists. split_and!; [by left | vm_compute; reflexivity..].
  - apply (f_equal (λ x, x.2 ≫= (λ r, r !! "id"))) in Happ.
    simpl in Happ. rewrite Hid in Happ. vm_compute in Happ. discriminate.
Qed.

(** C7, witness: two calls for ["alice"] on [sized_pool]. *)
Lemma apply_twice_same_cluster_witness :
  apply_cluster (with_active sized_pool [sized_claimed]) "alice" 20
  = (with_active sized_pool [sized_claimed],
     Some (projection sized_claimed (host1_with ["a1"]))).
Proof.
  apply (apply_twice_same_cluster sized_pool "alice" 10 20 _ _
           (host1_with ["a1"]) sized_claimed);
    vm_compute; reflexivity.
Defined.

(** C9, witness: the provisioning record of [mixed_pool] is still in
    place after an [apply_cluster]. *)
Lemma apply_claims_only_idle_witness :
  col_active (apply_cluster mixed_pool "alice" 10).1 !! 0%nat
  = Some (cluster "p1" "c0" "h1" NOT_READY "7049").
Proof.
  apply (apply_claims_only_idle mixed_pool "alice" 10);
    vm_compute; reflexivity.
Defined.

(** C2, at a concrete release.  ["alice"] releases her cluster [c1]; the
    call returns [True]; the background task archives the record and then
    stops with [TypeError] at the call of [create], so the pool holds no
    cluster any more and nothing named [c1] has been created. *)
Theorem release_recycle_does_not_recreate :
  (release_then_recycle port_start daemon_up up_one
     leased_pool "alice" 30 31 "b1" 32).2 = true
  ∧ col_active (release_then_recycle port_start daemon_up up_one
                  leased_pool "alice" 30 31 "b1" 32).1 = []
  ∧ col_released (release_then_recycle port_start daemon_up up_one
                    leased_pool "alice" 30 31 "b1" 32).1
    = [<["release_ts" := VTime 30]> (cluster "a1" "c1" "h1" "alice" "7050")]
  ∧ (delete_recreate_work port_start daemon_up up_one
       (<["release_ts" := VTime 30]> (cluster "a1" "c1" "h1" "alice" "7050"))
       (release_cluster leased_pool "alice" 30).1.1 31 "b1" 32).2
    = Raise TypeError.
Proof. vm_compute. done. Qed.

(** C6, at a concrete host.  The daemon address ["tcp://10.0.0.1"] has two
    segments; the daemon answers and the backend starts a container;
    [create] returns the new id, the active collection holds a record
    with an empty [api_url] and the host lists the new cluster. *)
Theorem create_malformed_daemon_url_succeeds :
  length (split ":"%char (h_daemon_url host_noport)) = 2%nat
  ∧ (create port_start daemon_up up_one noport_pool "c1" "h1" 0 "" "b1" 5).2
    = Ret (Some "b1")
  ∧ (λ d : doc, (d !! "id", d !! "api_url"))
      <$> col_active (create port_start daemon_up up_one noport_pool
                        "c1" "h1" 0 "" "b1" 5).1
    = [(Some (VStr "b1"), Some (VStr ""))]
  ∧ col_host (create port_start daemon_up up_one noport_pool
                "c1" "h1" 0 "" "b1" 5).1
    = [Host "h1" "tcp://10.0.0.1" "active" 4 ["b1"]].
Proof. vm_compute. done. Qed.

(** C4, witness: two ports on a host whose one cluster uses 7050. *)
Lemma find_free_api_ports_smallest_free_witness :
  ∃ l, find_free_api_ports port_start int_digits leased_pool "h1" 2
       = Ret (PortList l)
       ∧ length l = 2%nat
       ∧ StronglySorted Z.lt l
       ∧ (∀ p, p ∈ l → port_start ≤ p ∧ p ∉ [7050])
       ∧ (∀ p q, p ∈ l → port_start ≤ q → q ∉ [7050] → q ∉ l → p < q).
Proof.
  refine (proj1 (find_free_api_ports_smallest_free port_start int_digits
                   leased_pool "h1" 2
                   (host1_with ["a1"])
                   [7050] _ _ _) _ _);
    [vm_compute; reflexivity.. | lia | simpl; lia].
Defined.

(** C5, witness: the backend start raises on [leased_pool]. *)
Lemma create_all_or_nothing_witness :
  col_active (create port_start daemon_up up_fails leased_pool
                "c2" "h1" 0 "" "b1" 5).1 = col_active leased_pool
  ∧ col_released (create port_start daemon_up up_fails leased_pool
                    "c2" "h1" 0 "" "b1" 5).1 = col_released leased_pool.
Proof.
  refine (proj1 (create_all_or_nothing port_start daemon_up up_fails
                   leased_pool "c2" "h1" 0 "" "b1" 5 _) _ _).
  - apply (bool_decide_unpack _). vm_compute. exact I.
  - vm_compute. reflexivity.
Defined.

(** C8, witness: create on [empty_pool], then the forced delete with
    archiving. *)
Lemma create_delete_round_trip_witness :
  ∃ w2 h1 h2,
    delete (create port_start daemon_up up_one empty_pool
              "c1" "h1" 0 "" "b1" 5).1 "b1" "active" true true 9
    = (w2, true)
    ∧ (∃ d, d ∈ col_released w2 ∧ d !! "id" = Some (VStr "b1"))
    ∧ (∀ d, d ∈ col_active w2 → d !! "id" ≠ Some (VStr "b1"))
    ∧ host_by_id (Some (VStr "h1"))
        (col_host (create port_start daemon_up up_one empty_pool
                     "c1" "h1" 0 "" "b1" 5).1) = Some h1
    ∧ host_by_id (Some (VStr "h1")) (col_host w2) = Some h2
    ∧ ("b1" ∈ h_clusters h1)
    ∧ ("b1" ∉ h_clusters h2)
    ∧ length (h_clusters h1) = S (length (h_clusters h2)).
Proof.
  apply (create_delete_round_trip port_start daemon_up up_one empty_pool
           "c1" "h1" 0 "" "b1" 5 9).
  - apply (bool_decide_unpack _). vm_compute. exact I.
  - apply (bool_decide_unpack _). vm_compute. exact I.
  - apply (bool_decide_unpack _). vm_compute. exact I.
  - vm_compute. reflexivity.
Defined.

(** C10, counterexample.  No host has the id asked for, and the answer
    is still a list: the guard on [number] is passed first. *)
Lemma find_free_api_ports_absent_host_list :
  ¬ (∀ w host_id n,
       host_by_id (Some (VStr host_id)) (col_host w) = None →
       find_free_api_ports port_start int_digits w host_id n
       = Ret EmptyStr).
Proof.
  intros H. specialize (H empty_pool "nohost" 0 eq_refl).
  vm_compute in H. discriminate.
Qed.

(** C10, witness: one port asked of a host that is not there. *)
Lemma find_free_api_ports_result_type_witness :
  find_free_api_ports port_start int_digits empty_pool "nohost" 1
  = Ret EmptyStr.
Proof.
  apply (proj1 (proj2 (find_free_api_ports_result_type
                         port_start int_digits empty_pool "nohost" 1)));
    [lia | reflexivity].
Defined.

End scenarios.

(** ** More on [delete] *)
Section delete_more.
Implicit Types (q : query) (d : doc) (col : list doc).


Lemma delete_query_nonempty id col_name forced :
  delete_query id col_name forced ≠ [].
Proof. unfold delete_query. by destruct (_ && _). Qed.

Lemma delete_not_found w id col_name record forced now :
  find_one (delete_query id col_name forced) (delete_collection w col_name)
    = None →
  delete w id col_name record forced now = (w, false).
Proof.
  unfold delete, delete_query, delete_collection.
  destruct (bool_decide (col_name = "active")), forced; simpl;
    by intros ->.
Qed.

(** What a [delete] that found its record leaves behind. *)
Lemma delete_found w id col_name record forced now d :
  find_one (delete_query id col_name forced) (delete_collection w col_name)
    = Some d →
  ∃ w', delete w id col_name record forced now = (w', true)
    ∧ col_active w' =
        (if bool_decide (col_name = "active")
         then delete_one [("id", VStr id)] (col_active w)
         else col_active w)
    ∧ col_released w' =
        (if bool_decide (col_name = "active")
         then if record
              then match insert_one (stamp_release d now) (col_released w) with
                   | Ret r => r
                   | Raise _ => col_released w
                   end
              else col_released w
         else delete_one [("id", VStr id)] (col_released w))
    ∧ col_host w' =
        match host_by_id (d !! "host_id") (col_host w) with
        | Some h =>
            host_set_clusters (d !! "host_id")
              (if decide (id ∈ h_clusters h)
               then py_remove id (h_clusters h) else h_clusters h)
              (col_host w)
        | None => col_host w
        end
    ∧ (col_name ≠ "active" → environ w' = environ w).
Proof.
  intros Hd.
  assert (Hnot : py_not (Some d) = false).
  { apply find_one_Some in Hd as [_ Hm].
    eapply py_not_matches; [done | apply delete_query_nonempty]. }
  unfold delete. unfold delete_query, delete_collection in Hd.
  destruct (bool_decide (col_name = "active")) eqn:Hact.
  - assert (Hfind : (if true && negb forced
                     then find_one [("id", VStr id); ("user_id", VStr "")]
                                   (col_active w)
                     else find_one [("id", VStr id)] (col_active w)) = Some d).
    { by destruct forced. }
    rewrite Hfind, Hnot. fold (stamp_release d now).
    set (w0 := match host_by_id (d !! "host_id") (col_host w) with
               | Some h => _ | None => _ end).
    assert (Hw0 : col_active w0 = col_active w
                  ∧ col_released w0 = col_released w
                  ∧ col_host w0 = col_host w).
    { unfold w0. destruct (host_by_id _ _); [|done].
      by destruct (default _ _). }
    destruct Hw0 as (Ha & Hr & Hh). clearbody w0.
    destruct record.
    + destruct (insert_one (stamp_release d now) (col_released w0))
        as [r|e] eqn:Hins; rewrite Hr in Hins; rewrite Hins;
        rewrite stamp_release_host; simpl; rewrite Hh;
        destruct (host_by_id (d !! "host_id") (col_host w)); simpl;
        (eexists; split; [reflexivity|]; simpl; rewrite ?Ha, ?Hr, ?Hh;
         split_and!; try done;
         intros Hne; by apply bool_decide_eq_true in Hact).
    + simpl. rewrite Hh.
      destruct (host_by_id (d !! "host_id") (col_host w)); simpl;
        (eexists; split; [reflexivity|]; simpl; rewrite ?Ha, ?Hr, ?Hh;
         split_and!; try done;
         intros Hne; by apply bool_decide_eq_true in Hact).
  - simpl in Hd. simpl. rewrite Hd, Hnot.
    destruct (host_by_id (d !! "host_id") (col_host w)); simpl;
      (eexists; split; [reflexivity|]; simpl; done).
Qed.

(** X1.  [delete] returns [False] exactly when it selects no record: no
    record of the collection has the id or, in the active collection
    without [forced], none of them is idle.  It then leaves collections,
    hosts and environment as they were. *)
Theorem delete_fails_iff_no_record w id col_name record forced now :
  ((delete w id col_name record forced now).2 = false ↔
   ∀ d, d ∈ delete_collection w col_name →
        d !! "id" = Some (VStr id) →
        col_name = "active" ∧ forced = false
        ∧ d !! "user_id" ≠ Some (VStr ""))
  ∧ ((delete w id col_name record forced now).2 = false →
     (delete w id col_name record forced now).1 = w).
Proof.
  destruct (find_one (delete_query id col_name forced)
              (delete_collection w col_name)) as [d|] eqn:Hd.
  - destruct (delete_found w id col_name record forced now d Hd)
      as (w' & -> & _). simpl. split; [|done]. split; [done|].
    intros Hall. apply find_one_Some in Hd as [Hin Hm].
    unfold delete_query in Hm.
    destruct (bool_decide (col_name = "active") && negb forced) eqn:Hb.
    + apply Forall_cons_1 in Hm as [Hid Hm].
      apply Forall_cons_1 in Hm as [Hu _]. simpl in *.
      by destruct (Hall d Hin Hid) as (_ & _ & []).
    + apply Forall_cons_1 in Hm as [Hid _]. simpl in Hid.
      destruct (Hall d Hin Hid) as (-> & -> & _). done.
  - rewrite delete_not_found by done. simpl. split; [|done]. split; [|done].
    intros _ d Hin Hid. pose proof (find_one_None _ _ d Hd Hin) as Hm.
    unfold delete_query in Hm.
    destruct (bool_decide (col_name = "active")) eqn:Hact;
      [apply bool_decide_eq_true in Hact|]; destruct forced; simpl in Hm.
    + destruct Hm. by apply matches_singleton.
    + split_and!; [done..|]. intros Hu. destruct Hm.
      unfold matches. by repeat constructor.
    + destruct Hm. by apply matches_singleton.
    + destruct Hm. by apply matches_singleton.
Qed.

Lemma delete_one_keeps q col d :
  d ∈ col → ¬ matches q d → d ∈ delete_one q col.
Proof.
  induction col as [|d0 col IH]; [done|]. simpl.
  intros Hin Hm. destruct (decide (matches q d0)).
  - apply elem_of_cons in Hin as [->|]; done.
  - apply elem_of_cons in Hin as [->|]; [by left | right; by apply IH].
Qed.

Lemma delete_one_length q col :
  (length col ≤ S (length (delete_one q col)))%nat.
Proof.
  induction col as [|d0 col IH]; simpl; [lia|].
  destruct (decide (matches q d0)); simpl; lia.
Qed.

Lemma insert_one_keeps d0 col r d :
  insert_one d0 col = Ret r → d ∈ col → d ∈ r.
Proof.
  unfold insert_one. intros Hins Hin.
  destruct (d0 !! "_id"); [destruct (decide _); [done|]|];
    injection Hins as <-; apply elem_of_app; by left.
Qed.

Lemma insert_one_length d0 col r :
  insert_one d0 col = Ret r → (length col ≤ length r)%nat.
Proof.
  unfold insert_one. intros Hins.
  destruct (d0 !! "_id"); [destruct (decide _); [done|]|];
    injection Hins as <-; rewrite length_app; lia.
Qed.

(** X2.  [delete] takes at most one record out of the collection it works
    on, the active one or the released one, and none whose id is
    different; a delete in the active collection never loses an archived
    record, and a delete in the released collection leaves the active
    collection and the environment alone. *)
Theorem delete_keeps_other_records w id col_name record forced now :
  let w' := (delete w id col_name record forced now).1 in
  (∀ d, d ∈ col_active w → d !! "id" ≠ Some (VStr id) → d ∈ col_active w')
  ∧ (∀ d, d ∈ col_released w →
          col_name = "active" ∨ d !! "id" ≠ Some (VStr id) →
          d ∈ col_released w')
  ∧ (length (col_active w) ≤ S (length (col_active w')))%nat
  ∧ (col_name ≠ "active" →
     col_active w' = col_active w ∧ environ w' = environ w)
  ∧ (length (col_released w) ≤ S (length (col_released w')))%nat.
Proof.
  destruct (find_one (delete_query id col_name forced)
              (delete_collection w col_name)) as [d0|] eqn:Hd;
    [|rewrite delete_not_found by done; simpl;
      split_and!; [done..|lia|done|lia]].
  destruct (delete_found w id col_name record forced now d0 Hd)
    as (w' & -> & Ha & Hr & _ & He). simpl.
  destruct (bool_decide (col_name = "active")) eqn:Hact.
  - apply bool_decide_eq_true in Hact. rewrite Ha, Hr. split_and!.
    + intros d Hin Hid. apply delete_one_keeps; [done|].
      by rewrite matches_singleton.
    + intros d Hin _. destruct record; [|done].
      destruct (insert_one _ _) as [r|] eqn:Hins; [|done].
      by eapply insert_one_keeps.
    + apply delete_one_length.
    + done.
    + destruct record; [|lia].
      destruct (insert_one _ _) as [r|] eqn:Hins; [|lia].
      apply insert_one_length in Hins. lia.
  - apply bool_decide_eq_false in Hact. rewrite Ha, Hr. split_and!.
    + done.
    + intros d Hin [?|Hid]; [done|]. apply delete_one_keeps; [done|].
      by rewrite matches_singleton.
    + lia.
    + intros _. split; [done | by apply He].
    + apply delete_one_length.
Qed.

(** X3.  When the released collection already holds a record with the
    [_id] of the one being archived, the failed insert is swallowed: the
    forced delete with archiving still returns [True] and removes the
    record from the active collection, and the released collection is as
    before. *)
Theorem delete_archive_duplicate_swallowed w id now d i :
  find_one [("id", VStr id)] (col_active w) = Some d →
  stamp_release d now !! "_id" = Some i →
  Exists (λ d', d' !! "_id" = Some i) (col_released w) →
  ∃ w', delete w id "active" true true now = (w', true)
        ∧ col_active w' = delete_one [("id", VStr id)] (col_active w)
        ∧ col_released w' = col_released w.
Proof.
  intros Hd Hi Hdup.
  destruct (delete_active_forced w id true now d Hd)
    as (w' & Hrun & Ha & Hr & _).
  exists w'. split_and!; [done..|].
  rewrite Hr. unfold insert_one. rewrite Hi. by rewrite decide_True.
Qed.

End delete_more.

(** ** Counting the records a query selects *)
Section count_facts.
Implicit Types (q : query) (d : doc) (col : list doc).

Lemma find_nil_find_one q col : find q col = [] → find_one q col = None.
Proof.
  induction col as [|d0 col IH]; [done|]. unfold find in *.
  rewrite filter_cons, find_one_cons.
  destruct (decide (matches q d0)); [done | apply IH].
Qed.

(** Updating the first match so that it matches no longer takes one
    record out of the selection. *)
Lemma find_update_first_length q col (f : doc → doc) d :
  find_one q col = Some d →
  (∀ d', matches q d' → ¬ matches q (f d')) →
  S (length (find q (update_first q f col))) = length (find q col).
Proof.
  intros Hd Hf. revert Hd. induction col as [|d0 col IH]; [done|].
  rewrite find_one_cons. unfold find in *. simpl update_first.
  destruct (decide (matches q d0)) as [Hm|Hm].
  - intros _. rewrite !filter_cons.
    rewrite (decide_True (P := matches q d0)) by done.
    rewrite (decide_False (P := matches q (f d0))) by (by apply Hf). done.
  - intros Hd. rewrite !filter_cons, !decide_False by done. by apply IH.
Qed.


End count_facts.

(** ** More on [release_cluster] *)
Section release_more.
Context (START : Z) (test_daemon : string → bool)
        (project_up : string → string → string → result (list string)).


Lemma release_cluster_run w s now :
  release_cluster w s now =
  match find_one (release_query s) (col_active w) with
  | Some d =>
      (with_active w
         (update_one (release_query s) [("release_ts", VTime now)]
                     (col_active w)),
       true, Some (<["release_ts" := VTime now]> d))
  | None => (w, false, None)
  end.
Proof.
  unfold release_cluster, find_one_and_update. fold (release_query s).
  destruct (find_one (release_query s) (col_active w)) as [d|] eqn:Hd; simpl.
  - rewrite (bool_decide_eq_false_2 (_ = ∅)) by apply insert_non_empty.
    by rewrite lookup_insert_eq.
  - unfold update_one. rewrite update_first_None by done.
    by rewrite with_active_same.
Qed.

Lemma release_stamp_unmatches s now d :
  ¬ matches (release_query s) (set_fields [("release_ts", VTime now)] d).
Proof.
  intros Hm. apply Forall_cons_1 in Hm as [_ Hm].
  apply Forall_cons_1 in Hm as [Hm _]. simpl in Hm.
  by rewrite lookup_insert_eq in Hm.
Qed.

(** X4.  A successful [release_cluster] takes exactly one record out of
    the user's unreleased leases and touches neither the released
    collection nor the hosts; a failed one changes nothing.  So a user
    with a single lease is released once: the second call fails. *)
Theorem release_consumes_one_lease w u now :
  let w1 := (release_cluster w u now).1.1 in
  let ok := (release_cluster w u now).1.2 in
  col_released w1 = col_released w
  ∧ col_host w1 = col_host w
  ∧ (ok = false → w1 = w)
  ∧ (ok = true →
     S (length (find (release_query u) (col_active w1)))
     = length (find (release_query u) (col_active w))
     ∧ (length (find (release_query u) (col_active w)) = 1%nat →
        ∀ now', release_cluster w1 u now' = (w1, false, None))).
Proof.
  rewrite release_cluster_run.
  destruct (find_one (release_query u) (col_active w)) as [d|] eqn:Hd;
    [|by split_and!].
  simpl. split_and!; [done..|]. intros _.
  pose proof (find_update_first_length (release_query u) (col_active w)
                (set_fields [("release_ts", VTime now)]) d Hd
                (λ d' _, release_stamp_unmatches u now d')) as Hlen.
  split; [done|]. intros Hone now'. rewrite release_cluster_run. simpl.
  rewrite find_nil_find_one; [done|].
  apply nil_length_inv. unfold update_one. lia.
Qed.

(** X5.  The background task archives the released record as the release
    left it: when that record is the first with its id and its [_id] is
    new to the released collection, the archive gains exactly this record,
    whose [release_ts] is the time of the release and not of the
    deletion, and the active collection loses it. *)
Theorem recycle_archives_released_record w u now w1 c X now_d oid now_c :
  release_cluster w u now = (w1, true, Some c) →
  c !! "id" = Some (VStr X) →
  find_one [("id", VStr X)] (col_active w1) = Some c →
  (∀ i, c !! "_id" = Some i →
        Forall (λ d', d' !! "_id" ≠ Some i) (col_released w)) →
  let w2 := (delete_recreate_work START test_daemon project_up
               c w1 now_d oid now_c).1 in
  col_released w2 = col_released w ++ [c]
  ∧ c !! "release_ts" = Some (VTime now)
  ∧ col_active w2 = delete_one [("id", VStr X)] (col_active w1).
Proof.
  intros Hrel Hid Hfirst Hfresh.
  rewrite release_cluster_run in Hrel.
  destruct (find_one (release_query u) (col_active w)) as [d|]; [|done].
  injection Hrel as <- <-.
  assert (Hts : (<["release_ts" := VTime now]> d : doc) !! "release_ts"
                = Some (VTime now)) by apply lookup_insert_eq.
  set (c := <["release_ts" := VTime now]> d) in *.
  set (w1 := with_active w _) in *.
  assert (Hw2 : (delete_recreate_work START test_daemon project_up
                   c w1 now_d oid now_c).1
                = (delete w1 X "active" true true now_d).1).
  { unfold delete_recreate_work. rewrite Hid, create_rejects_api_url.
    by destruct (c !! "name") as [[]|]. }
  simpl. rewrite Hw2.
  destruct (delete_active_forced w1 X true now_d c Hfirst)
    as (w2 & -> & Ha & Hr & _). simpl.
  split_and!; [|done|done].
  rewrite Hr. unfold stamp_release. rewrite Hts. simpl.
  unfold insert_one. destruct (c !! "_id") as [i|] eqn:Hi; [|done].
  rewrite decide_False; [done|].
  rewrite Exists_exists. intros (d' & Hin & Hd').
  specialize (Hfresh i eq_refl). rewrite Forall_forall in Hfresh.
  by destruct (Hfresh d' Hin).
Qed.

End release_more.

(** ** More on [apply_cluster] *)
Section apply_more.

(** X6.  An [apply_cluster] that returns [None] has changed nothing:
    collections, hosts and environment are as before. *)
Theorem apply_none_unchanged w u now w' :
  apply_cluster w u now = (w', None) → w' = w.
Proof.
  intros Happ.
  destruct (apply_cluster_cases w u now)
    as [[_ Heq]|[(h & c & _ & _ & Heq)|[(h & _ & _ & _ & Heq)
        |(h & d & _ & _ & _ & Heq)]]]; rewrite Heq in Happ; by simplify_eq.
Qed.

Lemma projection_dom d h :
  dom (projection d h)
  = ({["id"; "name"; "user_id"; "api_url"; "daemon_url"]} : gset string).
Proof.
  unfold projection, _serialize. simpl. rewrite !dom_insert_L, dom_empty_L.
  set_solver.
Qed.

Lemma projection_lookup d h k :
  k ∈ ["id"; "name"; "user_id"; "api_url"] →
  projection d h !! k = Some (default (VStr "") (d !! k)).
Proof.
  intros Hk. unfold projection, _serialize. simpl.
  repeat (apply elem_of_cons in Hk as [->|Hk]; [by vm_compute|]).
  by apply elem_of_nil in Hk.
Qed.

(** X7.  What [apply_cluster] returns: a dict with exactly the keys [id],
    [name], [user_id], [api_url] and [daemon_url], whose [user_id] is the
    caller and whose [daemon_url] is that of the first active host; and the
    record it describes was, before the call, either idle or an unreleased
    lease of this user on that host, so a record that is leased and
    already released is never handed out. *)
Theorem apply_result w u now w' r :
  apply_cluster w u now = (w', Some r) →
  dom r = ({["id"; "name"; "user_id"; "api_url"; "daemon_url"]} : gset string)
  ∧ r !! "user_id" = Some (VStr u)
  ∧ ∃ h d, host_by_status "active" (col_host w) = Some h
           ∧ r !! "daemon_url" = Some (VStr (h_daemon_url h))
           ∧ d ∈ col_active w
           ∧ r !! "id" = Some (default (VStr "") (d !! "id"))
           ∧ (d !! "user_id" = Some (VStr "")
              ∨ d !! "user_id" = Some (VStr u)
                ∧ d !! "release_ts" = Some (VStr "")
                ∧ d !! "host_id" = Some (VStr (h_id h))).
Proof.
  intros Happ.
  destruct (apply_cluster_cases w u now)
    as [[_ Heq]|[(h & c & Hh & Hc & Heq)|[(h & _ & _ & _ & Heq)
        |(h & d & Hh & _ & Hd & Heq)]]]; rewrite Heq in Happ;
    simplify_eq.
  - apply find_one_Some in Hc as [Hin Hm].
    apply Forall_cons_1 in Hm as [Hu Hm].
    apply Forall_cons_1 in Hm as [Hr Hm].
    apply Forall_cons_1 in Hm as [Hhost _]. simpl in *.
    split_and!; [apply projection_dom| |].
    + rewrite projection_lookup by set_solver. by rewrite Hu.
    + exists h, c. split_and!; [done|by vm_compute|done| |by right].
      apply projection_lookup. set_solver.
  - apply find_one_Some in Hd as [Hin Hm].
    apply matches_singleton in Hm.
    split_and!; [apply projection_dom| |].
    + rewrite projection_lookup by set_solver. simpl.
      by rewrite lookup_insert_eq.
    + exists h, d. split_and!; [done|by vm_compute|done| |by left].
      rewrite projection_lookup by set_solver. simpl.
      by rewrite !lookup_insert_ne.
Qed.



End apply_more.

(** ** [_gen_api_url] *)
Section url_facts.
Context (START : Z).

Lemma format_url_inj ip : Inj (=) (=) (format_url ip).
Proof.
  intros p1 p2 H. unfold format_url in H.
  do 3 apply String.app_inj in H. by apply pretty_Z_inj in H.
Qed.

(** The loop stops at the first candidate whose address is not taken. *)
Lemma first_free_url_split ip (existed : list value) (cands : list Z) :
  Exists (λ i, VStr (format_url ip (START + i)) ∉ existed) cands →
  ∃ pre i post,
    cands = pre ++ i :: post
    ∧ first_free_url START ip existed cands = format_url ip (START + i)
    ∧ (VStr (format_url ip (START + i)) ∉ existed)
    ∧ Forall (λ j, VStr (format_url ip (START + j)) ∈ existed) pre.
Proof.
  induction cands as [|i cands IH]; [by intros ?%Exists_nil|].
  intros Hex. simpl.
  destruct (decide (VStr (format_url ip (START + i)) ∉ existed)) as [Hi|Hi].
  - by exists [], i, cands.
  - apply Exists_cons in Hex as [?|Hex]; [done|].
    destruct (IH Hex) as (pre & j & post & -> & Hres & Hj & Hpre).
    exists (i :: pre), j, post. split_and!; [done..|].
    constructor; [|done].
    by destruct (decide (VStr (format_url ip (START + i)) ∈ existed)).
Qed.

(** One more candidate than addresses taken: one of them is free. *)
Lemma some_candidate_free ip (existed : list value) :
  Exists (λ i, VStr (format_url ip (START + i)) ∉ existed)
         (seqZ 0 (Z.of_nat (length existed) + 1)).
Proof.
  apply not_Forall_Exists; [apply _|]. intros Hall.
  assert (Hinj : Inj (=) (=) (λ i, VStr (format_url ip (START + i)))).
  { intros i j H.
    assert (Hs := f_equal (λ v, match v with
                                | VStr s => s
                                | _ => EmptyString
                                end) H).
    cbv beta iota in Hs. apply format_url_inj in Hs. lia. }
  assert (Hle : (length ((λ i, VStr (format_url ip (START + i)))
                           <$> seqZ 0 (Z.of_nat (length existed) + 1))
                 ≤ length existed)%nat).
  { apply submseteq_length, NoDup_submseteq.
    - apply (NoDup_fmap_2 _), NoDup_seqZ.
    - intros x Hx. apply list_elem_of_fmap in Hx as (i & -> & Hi).
      rewrite Forall_forall in Hall. exact (Hall i Hi). }
  rewrite length_fmap, length_seqZ in Hle. lia.
Qed.

(** The two ways through [_gen_api_url] on a well-formed host. *)
Lemma gen_api_url_least_free_aux w host_id api_port h :
  host_by_id (Some (VStr host_id)) (col_host w) = Some h →
  length (split ":"%char (h_daemon_url h)) = 3%nat →
  let ip := slice_from 2 (default "" (split ":"%char (h_daemon_url h) !! 1%nat)) in
  let taken (url : string) :=
    ∃ c, c ∈ col_active w ∧ c !! "host_id" = Some (VStr host_id)
         ∧ default (VStr "") (c !! "api_url") = VStr url in
  (0 < api_port →
   _gen_api_url START w host_id api_port = format_url ip api_port)
  ∧ (api_port ≤ 0 →
     ∃ i, 0 ≤ i
          ∧ _gen_api_url START w host_id api_port = format_url ip (START + i)
          ∧ ¬ taken (format_url ip (START + i))
          ∧ ∀ j, 0 ≤ j < i → taken (format_url ip (START + j))).
Proof.
  intros Hh Hsegs ip taken. unfold _gen_api_url. rewrite Hh.
  rewrite decide_False by (by intros ?). fold ip. split.
  - intros Hp. by rewrite decide_True.
  - intros Hp. rewrite decide_False by lia.
    set (existed := (λ c : doc, default (VStr "") (c !! "api_url"))
                      <$> find [("host_id", VStr host_id)] (col_active w)).
    assert (Htaken : ∀ url, VStr url ∈ existed ↔ taken url).
    { intros url. unfold existed, taken. rewrite list_elem_of_fmap. split.
      - intros (c & Hc & Hin). apply list_elem_of_filter in Hin as [Hm Hin].
        apply matches_singleton in Hm. by exists c.
      - intros (c & Hin & Hhost & Hc). exists c. split; [done|].
        apply list_elem_of_filter. split; [|done].
        by apply matches_singleton. }
    destruct (first_free_url_split ip existed _ (some_candidate_free ip existed))
      as (pre & i & post & Hsplit & -> & Hfree & Hpre).
    assert (Hi : i ∈ seqZ 0 (Z.of_nat (length existed) + 1)).
    { rewrite Hsplit. apply elem_of_app. right. by left. }
    apply elem_of_seqZ in Hi.
    exists i. split_and!; [lia|done|by rewrite <- Htaken|].
    intros j Hj. apply Htaken.
    assert (Hjin : j ∈ seqZ 0 (Z.of_nat (length existed) + 1))
      by (apply elem_of_seqZ; lia).
    rewrite Hsplit in Hjin.
    apply elem_of_app in Hjin as [Hjin|Hjin].
    + rewrite Forall_forall in Hpre. by apply Hpre.
    + pose proof (seqZ_sorted 0 (Z.of_nat (length existed) + 1)) as Hs.
      rewrite Hsplit in Hs. apply StronglySorted_app in Hs as (_ & _ & Hs).
      apply StronglySorted_inv in Hs as [_ Hs].
      apply elem_of_cons in Hjin as [->|Hjin]; [lia|].
      rewrite Forall_forall in Hs. specialize (Hs j Hjin). lia.
Qed.

(** X9.  For a host that exists and whose daemon address has three
    segments, with [ip] the second segment without its two leading
    characters: an [api_port > 0] is used as it is, without a look at
    the addresses taken; otherwise the address returned is
    [http://ip:(CLUSTER_API_PORT_START + i)] for the least [i >= 0] whose
    address no active cluster of the host has, so it is never empty and
    never taken. *)
Theorem gen_api_url_least_free w host_id api_port h :
  host_by_id (Some (VStr host_id)) (col_host w) = Some h →
  length (split ":"%char (h_daemon_url h)) = 3%nat →
  let ip := slice_from 2 (default "" (split ":"%char (h_daemon_url h) !! 1%nat)) in
  let taken (url : string) :=
    ∃ c, c ∈ col_active w ∧ c !! "host_id" = Some (VStr host_id)
         ∧ default (VStr "") (c !! "api_url") = VStr url in
  (0 < api_port →
   _gen_api_url START w host_id api_port = format_url ip api_port)
  ∧ (api_port ≤ 0 →
     ∃ i, 0 ≤ i
          ∧ _gen_api_url START w host_id api_port = format_url ip (START + i)
          ∧ ¬ taken (format_url ip (START + i))
          ∧ ∀ j, 0 ≤ j < i → taken (format_url ip (START + j))).
Proof. apply gen_api_url_least_free_aux. Qed.

End url_facts.

(** ** More on [create] *)
Section create_more.
Context (START : Z) (test_daemon : string → bool)
        (project_up : string → string → string → result (list string)).

(** X10.  When the host is missing, full, or its daemon does not answer,
    [create] returns [None] and leaves collections, hosts and environment
    as they were: nothing is inserted and the backend is not started. *)
Theorem create_guard_unchanged w name host_id api_port user_id oid now :
  (host_by_id (Some (VStr host_id)) (col_host w) = None
   ∨ ∃ h, host_by_id (Some (VStr host_id)) (col_host w) = Some h
          ∧ (h_capacity h ≤ Z.of_nat (length (h_clusters h))
             ∨ test_daemon (h_daemon_url h) = false)) →
  create START test_daemon project_up w name host_id api_port user_id
         oid now = (w, Ret None).
Proof.
  unfold create. intros [->|(h & -> & [Hfull|Hping])]; [done|..].
  - by rewrite decide_True.
  - destruct (decide _); [done|]. by rewrite Hping.
Qed.

(** A [create] that returns an id went past the three guards and got a
    non-empty list of containers from the backend. *)
Lemma create_Some_inv w name host_id api_port user_id oid now w1 X :
  fresh_oid oid (col_active w) →
  create START test_daemon project_up w name host_id api_port user_id
         oid now = (w1, Ret (Some X)) →
  ∃ h c cs,
    host_by_id (Some (VStr host_id)) (col_host w) = Some h
    ∧ Z.of_nat (length (h_clusters h)) < h_capacity h
    ∧ test_daemon (h_daemon_url h) = true
    ∧ project_up oid
        (last_seg (split ":"%char (_gen_api_url START w host_id api_port)))
        (h_daemon_url h) = Ret (c :: cs)
    ∧ X = oid
    ∧ w1 = World
             (col_active w
                ++ [set_fields [("node_containers", VList (c :: cs));
                                ("user_id", VStr user_id)]
                      (inserted_record name host_id user_id
                         (_gen_api_url START w host_id api_port) oid now)])
             (col_released w)
             (host_set_clusters (Some (VStr host_id))
                                (h_clusters h ++ [oid]) (col_host w))
             (compose_environ oid
                (last_seg (split ":"%char
                             (_gen_api_url START w host_id api_port)))
                (h_daemon_url h) (environ w)).
Proof.
  intros Hfresh Hc.
  destruct (host_by_id (Some (VStr host_id)) (col_host w)) as [h|] eqn:Hh;
    [|unfold create in Hc; rewrite Hh in Hc; by simplify_eq].
  destruct (decide (h_capacity h ≤ Z.of_nat (length (h_clusters h))))
    as [Hfull|Hroom];
    [unfold create in Hc; rewrite Hh, decide_True in Hc by done;
     by simplify_eq|].
  destruct (test_daemon (h_daemon_url h)) eqn:Hping;
    [|unfold create in Hc;
      rewrite Hh, decide_False, Hping in Hc by done; simpl in Hc;
      by simplify_eq].
  rewrite (create_run START test_daemon project_up _ _ _ _ _ _ _ h) in Hc
    by (done || lia).
  destruct (project_up _ _ _) as [[|c cs]|e] eqn:Hup; [done| |done].
  injection Hc as <- <-. exists h, c, cs. split_and!; try done. lia.
Qed.

(** X11.  A [create] that returns an id (new to the active collection)
    returns the generated one, and leaves exactly one more active record:
    it carries that id, the name and host asked for, the [user_id] passed
    in (so idle by default), an empty [release_ts] and the non-empty list
    of containers the backend reported: the list is what [project_up]
    returned for that id, the port of the record's [api_url] and the
    host's daemon.  The released collection is untouched, the id is
    appended to the host's list, and the list stays within the
    capacity. *)
Theorem create_success_record w name host_id api_port user_id oid now w1 X :
  fresh_oid oid (col_active w) →
  create START test_daemon project_up w name host_id api_port user_id
         oid now = (w1, Ret (Some X)) →
  X = oid
  ∧ col_released w1 = col_released w
  ∧ ∃ d c cs h,
      col_active w1 = col_active w ++ [d]
      ∧ d !! "id" = Some (VStr oid)
      ∧ d !! "name" = Some (VStr name)
      ∧ d !! "host_id" = Some (VStr host_id)
      ∧ d !! "user_id" = Some (VStr user_id)
      ∧ d !! "release_ts" = Some (VStr "")
      ∧ d !! "node_containers" = Some (VList (c :: cs))
      ∧ host_by_id (Some (VStr host_id)) (col_host w) = Some h
      ∧ host_by_id (Some (VStr host_id)) (col_host w1)
        = Some (Host (h_id h) (h_daemon_url h) (h_status h) (h_capacity h)
                     (h_clusters h ++ [oid]))
      ∧ Z.of_nat (length (h_clusters h ++ [oid])) ≤ h_capacity h
      ∧ d !! "api_url"
        = Some (VStr (_gen_api_url START w host_id api_port))
      ∧ project_up oid
          (last_seg (split ":"%char
                       (_gen_api_url START w host_id api_port)))
          (h_daemon_url h) = Ret (c :: cs).
Proof.
  intros Hfresh Hc.
  destruct (create_Some_inv _ _ _ _ _ _ _ _ _ Hfresh Hc)
    as (h & c & cs & Hh & Hroom & Hping & Hup & -> & ->).
  split_and!; [done..|].
  eexists _, c, cs, h. split_and!; [reflexivity|..].
  - by vm_compute.
  - by vm_compute.
  - by vm_compute.
  - by vm_compute.
  - by vm_compute.
  - by vm_compute.
  - done.
  - by apply host_by_id_set_clusters.
  - rewrite length_app. simpl. lia.
  - unfold set_fields, inserted_record. simpl.
    by repeat (rewrite lookup_insert_ne by done); rewrite ?lookup_insert_eq.
  - exact Hup.
Qed.

Lemma host_by_status_set_clusters s i cl hs h :
  host_by_status s hs = Some h →
  ∃ h', host_by_status s (host_set_clusters i cl hs) = Some h'
        ∧ h_id h' = h_id h ∧ h_daemon_url h' = h_daemon_url h.
Proof.
  unfold host_by_status. induction hs as [|h0 hs IH]; [done|]. simpl.
  destruct (bool_decide (Some (VStr (h_id h0)) = i)) eqn:Hi; simpl.
  - destruct (bool_decide (h_status h0 = s)); [|by eauto].
    intros [= <-]. by eexists.
  - destruct (bool_decide (h_status h0 = s)); [|done].
    intros [= <-]. by eexists.
Qed.

Lemma find_one_snoc_None q col d :
  find_one q col = None → ¬ matches q d → find_one q (col ++ [d]) = None.
Proof.
  intros Hcol Hd. induction col as [|d0 col IH].
  - cbn [app]. rewrite find_one_cons. by rewrite decide_False.
  - rewrite find_one_cons in Hcol. rewrite <- app_comm_cons, find_one_cons.
    destruct (decide (matches q d0)); [done | by apply IH].
Qed.

Lemma find_one_None_Forall q col :
  find_one q col = None → Forall (λ d, ¬ matches q d) col.
Proof.
  intros H. apply Forall_forall. intros d Hin. by eapply find_one_None.
Qed.

(** X12.  A cluster just created (with the default [user_id]) is the one
    the next [apply_cluster] hands out, when the pool held no idle cluster
    and the user (with a name) no lease on the first active host. *)
Theorem create_then_apply w name host_id api_port oid now w1 X u now' h :
  fresh_oid oid (col_active w) →
  create START test_daemon project_up w name host_id api_port ""
         oid now = (w1, Ret (Some X)) →
  host_by_status "active" (col_host w) = Some h →
  find_one [("user_id", VStr "")] (col_active w) = None →
  find_one (lease_query u h) (col_active w) = None →
  u ≠ "" →
  ∃ w2 r, apply_cluster w1 u now' = (w2, Some r)
          ∧ r !! "id" = Some (VStr X)
          ∧ r !! "name" = Some (VStr name)
          ∧ r !! "user_id" = Some (VStr u).
Proof.
  intros Hfresh Hc Hst Hidle Hlease Hu. fold idle_query in Hidle.
  destruct (create_Some_inv _ _ _ _ _ _ _ _ _ Hfresh Hc)
    as (h0 & c & cs & Hh & _ & _ & _ & -> & ->).
  set (d := set_fields _ _).
  set (w1 := World _ _ _ _).
  destruct (host_by_status_set_clusters "active" (Some (VStr host_id))
              (h_clusters h0 ++ [oid]) _ _ Hst) as (h' & Hst' & Hid & Hurl).
  assert (Hdu : d !! "user_id" = Some (VStr "")) by (by vm_compute).
  assert (Hl1 : find_one (lease_query u h') (col_active w1) = None).
  { apply find_one_snoc_None.
    - unfold lease_query. by rewrite Hid.
    - intros Hm. apply Forall_cons_1 in Hm as [Hm _]. simpl in Hm.
      rewrite Hdu in Hm. by simplify_eq. }
  destruct (find_one_snoc idle_query (col_active w) d
              (find_one_None_Forall _ _ Hidle)) as (Hi1 & _ & _).
  { by apply matches_singleton. }
  destruct (apply_cluster_cases w1 u now')
    as [[? _]|[(h1 & c1 & ? & ? & _)|[(h1 & ? & _ & ? & _)
        |(h1 & d1 & ? & _ & ? & ->)]]]; simpl in *; simplify_eq.
  eexists _, _. split_and!; [reflexivity|..].
  - rewrite projection_lookup by set_solver. by vm_compute.
  - rewrite projection_lookup by set_solver. by vm_compute.
  - rewrite projection_lookup by set_solver. simpl.
    by rewrite lookup_insert_eq.
Qed.

(** X13.  With the port left to [create] ([api_port <= 0]) on a host
    whose daemon address has three segments, the record of a successful
    [create] gets an [api_url] that no active cluster of that host had:
    addresses stay distinct on the host. *)
Theorem create_auto_port_unused w name host_id api_port user_id oid now
    w1 X h :
  fresh_oid oid (col_active w) →
  host_by_id (Some (VStr host_id)) (col_host w) = Some h →
  length (split ":"%char (h_daemon_url h)) = 3%nat →
  api_port ≤ 0 →
  create START test_daemon project_up w name host_id api_port user_id
         oid now = (w1, Ret (Some X)) →
  ∃ d url, col_active w1 = col_active w ++ [d]
           ∧ d !! "api_url" = Some (VStr url)
           ∧ url ≠ ""
           ∧ ∀ c, c ∈ col_active w →
                  c !! "host_id" = Some (VStr host_id) →
                  c !! "api_url" ≠ Some (VStr url).
Proof.
  intros Hfresh Hh Hsegs Hport Hc.
  destruct (create_Some_inv _ _ _ _ _ _ _ _ _ Hfresh Hc)
    as (h0 & c & cs & _ & _ & _ & _ & -> & ->).
  destruct (proj2 (gen_api_url_least_free_aux START w host_id api_port h
                     Hh Hsegs) Hport)
    as (i & _ & Hurl & Hfree & _).
  eexists _, (_gen_api_url START w host_id api_port).
  split_and!; [reflexivity| | |].
  - unfold inserted_record. cbn [set_fields foldr fst snd].
    rewrite !lookup_insert_ne by done. apply lookup_insert_eq.
  - rewrite Hurl. unfold format_url. done.
  - intros c0 Hin Hhost Hc0. apply Hfree. exists c0.
    split_and!; [done..|]. rewrite Hc0. simpl. by rewrite Hurl.
Qed.

End create_more.

(** ** [_serialize], [get] and [list] *)
Section read_facts.
Implicit Types (q : query) (d : doc) (col : list doc).

(** X14.  [_serialize] gives a dict with exactly the keys asked for; each
    holds the field of the record, or the empty string when the record
    has no such field. *)
Theorem serialize_keys d (keys : list string) :
  dom (_serialize d keys) = (list_to_set keys : gset string)
  ∧ ∀ k, k ∈ keys →
         _serialize d keys !! k = Some (default (VStr "") (d !! k)).
Proof.
  unfold _serialize. induction keys as [|k0 keys [IHd IHl]]; simpl.
  - split; [by rewrite dom_empty_L | by intros k ?%elem_of_nil].
  - split; [by rewrite dom_insert_L, IHd|].
    intros k Hk. destruct (decide (k0 = k)) as [->|Hne].
    + by rewrite lookup_insert_eq.
    + rewrite lookup_insert_ne by done. apply IHl.
      apply elem_of_cons in Hk as [?|?]; [congruence | done].
Qed.

Lemma serialize_default_id d :
  _serialize d ClusterHandlerRead.default_keys !! "id"
  = Some (default (VStr "") (d !! "id")).
Proof. apply lookup_insert_eq. Qed.

(** X15.  [get] reads the released collection for ["released"] and the
    active one for any other name.  It returns the empty dict exactly when
    no record of that collection has the id; what it returns otherwise
    carries the id asked for, serialized or not. *)
Theorem get_by_id w id serialization collection :
  let col := if bool_decide (collection = "released")
             then col_released w else col_active w in
  (ClusterHandlerRead.get w id serialization collection = ∅ ↔
   ∀ d, d ∈ col → d !! "id" ≠ Some (VStr id))
  ∧ (ClusterHandlerRead.get w id serialization collection ≠ ∅ →
     ClusterHandlerRead.get w id serialization collection !! "id"
     = Some (VStr id)).
Proof.
  intros col. unfold ClusterHandlerRead.get.
  assert (Hcol : (if bool_decide (collection ≠ "released")
                  then find_one [("id", VStr id)] (col_active w)
                  else find_one [("id", VStr id)] (col_released w))
                 = find_one [("id", VStr id)] col).
  { unfold col. destruct (decide (collection = "released")).
    - rewrite bool_decide_eq_false_2 by (by intros []).
      by rewrite bool_decide_eq_true_2.
    - rewrite bool_decide_eq_true_2 by done.
      by rewrite bool_decide_eq_false_2. }
  rewrite Hcol. clear Hcol.
  destruct (find_one [("id", VStr id)] col) as [d|] eqn:Hd.
  - pose proof Hd as Hd'. apply find_one_Some in Hd' as [Hin Hm].
    rewrite (py_not_matches _ _ Hm) by done.
    apply matches_singleton in Hm.
    assert (Hid : (if serialization
                   then _serialize d ClusterHandlerRead.default_keys
                   else d) !! "id" = Some (VStr id)).
    { destruct serialization; [|done].
      by rewrite serialize_default_id, Hm. }
    split; [|done]. split.
    + intros Hempty. rewrite Hempty, lookup_empty in Hid. done.
    + intros Hall. by destruct (Hall d Hin).
  - split; [|done]. split; [|done].
    intros _ d Hin Hid. eapply find_one_None; [done..|].
    by apply matches_singleton.
Qed.


End read_facts.

(** ** More on [find_free_api_ports] *)
Section port_more.
Context (START : Z) (py_int : string → option Z).

Lemma take_filter_window (used : list Z) (s : Z) (a b : nat) (n : nat) :
  (n ≤ length (filter (λ item, item ∉ used) (seqZ s (Z.of_nat a))))%nat →
  take n (filter (λ item, item ∉ used) (seqZ s (Z.of_nat a + Z.of_nat b)))
  = take n (filter (λ item, item ∉ used) (seqZ s (Z.of_nat a))).
Proof.
  intros Hn. rewrite seqZ_app by lia. rewrite filter_app.
  by rewrite take_app_le.
Qed.

(** X17.  The ports found for [n] are the first [n] of the ports found
    for any larger count [m] (both below the limit): asking for more never
    changes the ports already offered. *)
Theorem find_free_api_ports_prefix w host_id n m h used :
  host_by_id (Some (VStr host_id)) (col_host w) = Some h →
  length (split ":"%char (h_daemon_url h)) = 3%nat →
  ports_of py_int (find [("host_id", VStr host_id)] (col_active w))
    = Ret used →
  1 ≤ n ≤ m → Z.of_nat (length used) + m < 64000 →
  ∃ ln lm,
    find_free_api_ports START py_int w host_id n = Ret (PortList ln)
    ∧ find_free_api_ports START py_int w host_id m = Ret (PortList lm)
    ∧ ln = take (Z.to_nat n) lm.
Proof.
  intros Hh Hsegs Hused Hn Hm. unfold find_free_api_ports.
  rewrite !decide_False by lia. rewrite Hh.
  rewrite decide_False by (by intros ?). rewrite Hused.
  rewrite !decide_False by lia.
  change (λ i, START + i) with (Z.add START).
  rewrite !fmap_add_seqZ, Z.add_0_r.
  eexists _, _. split_and!; [reflexivity..|].
  rewrite take_take, Nat.min_l by lia.
  replace (Z.of_nat (length used) + m)
    with (Z.of_nat (length used + Z.to_nat n) + Z.of_nat (Z.to_nat (m - n)))
    by lia.
  rewrite take_filter_window.
  - f_equal. f_equal. f_equal. lia.
  - apply free_candidates_enough. lia.
Qed.

End port_more.

(** ** The [cluster_op] actions *)
Section api_given.
Import ClusterApi.

Lemma given_Some (v : option string) :
  given v = true → ∃ s, v = Some s ∧ s ≠ "".
Proof.
  destruct v as [s|]; [|done]. simpl. intros H%bool_decide_eq_true. eauto.
Qed.

End api_given.

Section api_apply_facts.
Import ClusterApi.
Context {request : Type}
        (request_get : request → string → option string)
        (py_int : string → option Z)
        (CONSENSUS_PLUGINS CONSENSUS_MODES : list string)
        (CLUSTER_SIZES : list Z)
        (handler_apply_cluster :
           world → string → doc → option string → world * option doc).

(** X18.  [cluster_apply] reaches the handler only with a non-empty
    [user_id] and a condition it has checked: the condition has no key
    besides [consensus_plugin], [consensus_mode] and [size], and each one
    present holds the value of the request, taken from the allowed set.
    Every other request ends, with the store untouched, in [ValueError]
    (a [size] that is no integer) or in one of four failure responses. *)
Theorem cluster_apply_validates w r :
  (∃ u cond w1 c,
     request_get r "user_id" = Some u ∧ u ≠ ""
     ∧ handler_apply_cluster w u cond (request_get r "allow_multiple")
       = (w1, c)
     ∧ cluster_apply request_get py_int CONSENSUS_PLUGINS CONSENSUS_MODES
         CLUSTER_SIZES handler_apply_cluster w r
       = (w1, Ret (if py_not c
                   then make_fail_response
                          (Some ("No available res for " +:+ u)) None
                   else make_ok_response c))
     ∧ dom cond ⊆ ({["consensus_plugin"; "consensus_mode"; "size"]}
                    : gset string)
     ∧ (∀ v, cond !! "consensus_plugin" = Some v →
             ∃ p, v = VStr p ∧ p ∈ CONSENSUS_PLUGINS
                  ∧ request_get r "consensus_plugin" = Some p)
     ∧ (∀ v, cond !! "consensus_mode" = Some v →
             ∃ m, v = VStr m ∧ m ∈ CONSENSUS_MODES
                  ∧ request_get r "consensus_mode" = Some m)
     ∧ (∀ v, cond !! "size" = Some v →
             ∃ s z, v = VInt z ∧ z ∈ CLUSTER_SIZES
                    ∧ request_get r "size" = Some s ∧ py_int s = Some z))
  ∨ (∃ outcome,
       cluster_apply request_get py_int CONSENSUS_PLUGINS CONSENSUS_MODES
         CLUSTER_SIZES handler_apply_cluster w r = (w, outcome)
       ∧ (outcome = Raise ValueError
          ∨ ∃ msg, outcome = Ret (make_fail_response (Some msg) None)
                   ∧ msg ∈ ["cluster_apply without user_id";
                            "Invalid consensus_plugin";
                            "Invalid consensus_mode";
                            "Invalid cluster_size"])).
Proof.
  unfold cluster_apply.
  destruct (request_get r "user_id") as [u|] eqn:Hu; [|api_fails].
  destruct (given (Some u)) eqn:Hgu; cbn [negb]; [|api_fails].
  apply given_Some in Hgu as (? & [= <-] & Hune).
  destruct (if given (request_get r "size")
            then py_int (default "" (request_get r "size"))
            else Some (-1)) as [z|] eqn:Hz;
    [|right; eexists; split; [reflexivity|]; by left].
  assert (Hsize : 0 ≤ z → ∃ s, request_get r "size" = Some s
                               ∧ py_int s = Some z).
  { intros Hz0. destruct (given (request_get r "size")) eqn:Hgs.
    - apply given_Some in Hgs as (s & Hs & _). rewrite Hs in Hz. eauto.
    - injection Hz as <-. lia. }
  clear Hz.
  destruct (given (request_get r "consensus_plugin")) eqn:Hgp; cbn [andb].
  all: try (destruct (decide (default "" (request_get r "consensus_plugin")
                              ∉ CONSENSUS_PLUGINS)) as [Hp|Hp];
            [rewrite bool_decide_eq_true_2 by done; api_fails
            |rewrite bool_decide_eq_false_2 by done;
             apply dec_stable in Hp;
             apply given_Some in Hgp as (p & Hgp & _);
             rewrite Hgp in Hp |- *; cbn [default] in Hp |- *]).
  all: destruct (given (request_get r "consensus_mode")) eqn:Hgm; cbn [andb].
  all: try (destruct (decide (default "" (request_get r "consensus_mode")
                              ∉ CONSENSUS_MODES)) as [Hm|Hm];
            [rewrite bool_decide_eq_true_2 by done; api_fails
            |rewrite bool_decide_eq_false_2 by done;
             apply dec_stable in Hm;
             apply given_Some in Hgm as (m & Hgm & _);
             rewrite Hgm in Hm |- *; cbn [default] in Hm |- *]).
  all: destruct (decide (0 ≤ z)) as [Hz0|Hz0];
    [rewrite !(bool_decide_eq_true_2 (0 ≤ z)) by done; cbn [andb];
     destruct (decide (z ∉ CLUSTER_SIZES)) as [Hzin|Hzin];
     [rewrite bool_decide_eq_true_2 by done; api_fails
     |rewrite bool_decide_eq_false_2 by done; apply dec_stable in Hzin;
      destruct (Hsize Hz0) as (s & Hs & Hps)]
    |rewrite !(bool_decide_eq_false_2 (0 ≤ z)) by done; cbn [andb]].
  all: left;
    destruct (handler_apply_cluster w u _ _) as [w1 c] eqn:Hcall;
    eexists u, _, w1, c;
    (split_and!;
     [done | done | exact Hcall | by destruct (py_not c)
     | rewrite ?dom_insert_L, dom_empty_L; set_unfold; tauto | ..]);
    intros v Hv;
    rewrite ?lookup_insert_ne, ?lookup_insert_eq, ?lookup_empty in Hv
      by done;
    simplify_eq; eauto 10.
Qed.

End api_apply_facts.

Section api_actions_facts.
Import ClusterApi.
Context {request : Type}
        (request_get : request → string → option string)
        (py_int : string → option Z)
        (CONSENSUS_PLUGINS CONSENSUS_MODES : list string)
        (CLUSTER_SIZES : list Z)
        (handler_apply_cluster :
           world → string → doc → option string → world * option doc)
        (handler_release_cluster handler_start handler_stop handler_restart :
           world → string → world * bool).

(** X19.  [cluster_actions] leaves the store alone and answers with a
    failure, whatever the handler would do, when the action is none of
    [apply], [release], [start], [stop], [restart], when one of the last
    four comes without a [cluster_id], and when [apply] comes without a
    [user_id]. *)
Theorem cluster_actions_rejects w r :
  let run := cluster_actions request_get py_int CONSENSUS_PLUGINS
               CONSENSUS_MODES CLUSTER_SIZES handler_apply_cluster
               handler_release_cluster handler_start handler_stop
               handler_restart in
  (request_get r "action" ∉ [Some "apply"; Some "release"; Some "start";
                             Some "stop"; Some "restart"] →
   run w r = (w, Ret (make_fail_response None (Some "Unknown action type"))))
  ∧ (request_get r "action" ∈ [Some "release"; Some "start"; Some "stop";
                               Some "restart"] →
     given (request_get r "cluster_id") = false →
     run w r
     = (w, Ret (make_fail_response (Some "No cluster_id is given") None)))
  ∧ (request_get r "action" = Some "apply" →
     given (request_get r "user_id") = false →
     run w r
     = (w, Ret (make_fail_response
                  (Some "cluster_apply without user_id") None))).
Proof.
  intros run. unfold run, cluster_actions. split_and!.
  - intros Hact. rewrite !bool_decide_eq_false_2; [done|..];
      intros Heq; apply Hact; rewrite Heq; set_solver.
  - intros Hact Hid.
    assert (Hrun : ∀ op failed,
              cluster_id_action request_get op failed w r
              = (w, make_fail_response (Some "No cluster_id is given") None)).
    { intros op failed. unfold cluster_id_action.
      destruct (request_get r "cluster_id"); [|done]. by rewrite Hid. }
    unfold cluster_release, cluster_start, cluster_stop, cluster_restart.
    rewrite !Hrun. simpl.
    repeat (apply elem_of_cons in Hact as [->|Hact]; [done|]).
    by apply elem_of_nil in Hact.
  - intros -> Hu. rewrite bool_decide_eq_true_2 by done.
    unfold cluster_apply. destruct (request_get r "user_id"); [|done].
    by rewrite Hu.
Qed.

End api_actions_facts.

(** ** The added properties on concrete stores *)
Section more_scenarios.
Import Scenario ScenarioMore.

(** X1, witness: a delete without [forced] of the leased cluster. *)
Lemma delete_fails_iff_no_record_witness :
  (delete leased_pool "a1" "active" false false 5).1 = leased_pool.
Proof.
  apply (proj2 (delete_fails_iff_no_record leased_pool "a1" "active"
                  false false 5)).
  vm_compute. reflexivity.
Defined.

(** X2, witness: deleting [a1] keeps [a2]. *)
Lemma delete_keeps_other_records_witness :
  cluster "a2" "c2" "h1" "" "7050"
  ∈ col_active (delete two_hosts "a1" "active" false true 5).1.
Proof.
  apply (proj1 (delete_keeps_other_records two_hosts "a1" "active"
                  false true 5)).
  - right. left.
  - apply (bool_decide_unpack _). vm_compute. exact I.
Defined.

(** X3, witness: the archive holds the record already. *)
Lemma delete_archive_duplicate_swallowed_witness :
  ∃ w', delete archived_twice "a1" "active" true true 5 = (w', true)
        ∧ col_active w'
          = delete_one [("id", VStr "a1")] (col_active archived_twice)
        ∧ col_released w' = col_released archived_twice.
Proof.
  apply (delete_archive_duplicate_swallowed archived_twice "a1" 5
           (cluster "a1" "c1" "h1" "alice" "7050") (VOid "a1")).
  - vm_compute. reflexivity.
  - vm_compute. reflexivity.
  - apply (bool_decide_unpack _). vm_compute. exact I.
Defined.

(** X4, witness: ["alice"] has one lease; the second release fails. *)
Lemma release_consumes_one_lease_witness :
  release_cluster (release_cluster leased_pool "alice" 30).1.1 "alice" 31
  = ((release_cluster leased_pool "alice" 30).1.1, false, None).
Proof.
  apply (release_consumes_one_lease leased_pool "alice" 30);
    vm_compute; reflexivity.
Defined.

(** X5, witness: release at 30, deletion at 31. *)
Lemma recycle_archives_released_record_witness :
  col_released
    (delete_recreate_work port_start daemon_up up_one
       (<["release_ts" := VTime 30]> (cluster "a1" "c1" "h1" "alice" "7050"))
       (release_cluster leased_pool "alice" 30).1.1 31 "b1" 32).1
  = col_released leased_pool
      ++ [<["release_ts" := VTime 30]>
            (cluster "a1" "c1" "h1" "alice" "7050")].
Proof.
  apply (recycle_archives_released_record port_start daemon_up up_one
           leased_pool "alice" 30 _ _ "a1" 31 "b1" 32).
  - vm_compute. reflexivity.
  - vm_compute. reflexivity.
  - vm_compute. reflexivity.
  - intros i _. constructor.
Defined.

(** X6, witness: an empty pool. *)
Lemma apply_none_unchanged_witness :
  (apply_cluster empty_pool "alice" 1).1 = empty_pool.
Proof.
  apply (apply_none_unchanged empty_pool "alice" 1).
  vm_compute. reflexivity.
Defined.

(** X7, witness: the claim on [sized_pool]. *)
Lemma apply_result_witness :
  projection sized_claimed (host1_with ["a1"]) !! "user_id"
  = Some (VStr "alice").
Proof.
  apply (apply_result sized_pool "alice" 10
           (with_active sized_pool [sized_claimed])).
  vm_compute. reflexivity.
Defined.


(** X9, witness: an explicit port on [leased_pool]. *)
Lemma gen_api_url_least_free_witness :
  _gen_api_url port_start leased_pool "h1" 8080 = "http://10.0.0.1:8080".
Proof.
  rewrite (proj1 (gen_api_url_least_free port_start leased_pool "h1" 8080
                    (host1_with ["a1"]) eq_refl eq_refl)) by lia.
  vm_compute. reflexivity.
Defined.

(** X10, witness: no host has the id. *)
Lemma create_guard_unchanged_witness :
  create port_start daemon_up up_one leased_pool "c2" "nohost" 0 "" "b1" 5
  = (leased_pool, Ret None).
Proof.
  apply (create_guard_unchanged port_start daemon_up up_one).
  left. vm_compute. reflexivity.
Defined.

(** X11, witness: a create on [empty_pool]. *)
Lemma create_success_record_witness :
  "b1" = "b1"
  ∧ col_released (create port_start daemon_up up_one empty_pool
                    "c1" "h1" 0 "" "b1" 5).1 = col_released empty_pool.
Proof.
  refine (let H := create_success_record port_start daemon_up up_one
                     empty_pool "c1" "h1" 0 "" "b1" 5 _ "b1" _ _ in
          conj (proj1 H) (proj1 (proj2 H))).
  - apply (bool_decide_unpack _). vm_compute. exact I.
  - vm_compute. reflexivity.
Defined.

(** X12, witness: create on [empty_pool], then ["alice"] applies. *)
Lemma create_then_apply_witness :
  ∃ w2 r,
    apply_cluster (create port_start daemon_up up_one empty_pool
                     "c1" "h1" 0 "" "b1" 5).1 "alice" 9 = (w2, Some r)
    ∧ r !! "id" = Some (VStr "b1")
    ∧ r !! "name" = Some (VStr "c1")
    ∧ r !! "user_id" = Some (VStr "alice").
Proof.
  apply (create_then_apply port_start daemon_up up_one empty_pool
           "c1" "h1" 0 "b1" 5 _ "b1" "alice" 9 host1).
  - apply (bool_decide_unpack _). vm_compute. exact I.
  - vm_compute. reflexivity.
  - vm_compute. reflexivity.
  - vm_compute. reflexivity.
  - vm_compute. reflexivity.
  - discriminate.
Defined.

(** X13, witness: a second cluster on the host of [leased_pool]. *)
Lemma create_auto_port_unused_witness :
  ∃ d url,
    col_active (create port_start daemon_up up_one leased_pool
                  "c2" "h1" 0 "" "b1" 5).1 = col_active leased_pool ++ [d]
    ∧ d !! "api_url" = Some (VStr url)
    ∧ url ≠ ""
    ∧ ∀ c, c ∈ col_active leased_pool →
           c !! "host_id" = Some (VStr "h1") →
           c !! "api_url" ≠ Some (VStr url).
Proof.
  apply (create_auto_port_unused port_start daemon_up up_one leased_pool
           "c2" "h1" 0 "" "b1" 5 _ "b1" (host1_with ["a1"])).
  - apply (bool_decide_unpack _). vm_compute. exact I.
  - vm_compute. reflexivity.
  - vm_compute. reflexivity.
  - lia.
  - vm_compute. reflexivity.
Defined.

(** X14, witness: a field the record does not have. *)
Lemma serialize_keys_witness :
  _serialize (cluster "a1" "c1" "h1" "" "7050") ["id"; "apply_ts"]
    !! "apply_ts" = Some (VStr "").
Proof.
  apply (proj2 (serialize_keys (cluster "a1" "c1" "h1" "" "7050")
                  ["id"; "apply_ts"])).
  right. left.
Defined.

(** X15, witness: an id the pool does not have. *)
Lemma get_by_id_witness :
  ClusterHandlerRead.get leased_pool "zz" true "active" = ∅.
Proof.
  apply (proj1 (get_by_id leased_pool "zz" true "active")).
  intros d Hd. apply list_elem_of_singleton in Hd as ->.
  apply (bool_decide_unpack _). vm_compute. exact I.
Defined.


(** X17, witness: one port, then three. *)
Lemma find_free_api_ports_prefix_witness :
  ∃ ln lm,
    find_free_api_ports port_start int_digits leased_pool "h1" 1
    = Ret (PortList ln)
    ∧ find_free_api_ports port_start int_digits leased_pool "h1" 3
      = Ret (PortList lm)
    ∧ ln = take (Z.to_nat 1) lm.
Proof.
  apply (find_free_api_ports_prefix port_start int_digits leased_pool "h1"
           1 3 (host1_with ["a1"]) [7050]).
  - vm_compute. reflexivity.
  - vm_compute. reflexivity.
  - vm_compute. reflexivity.
  - lia.
  - simpl. lia.
Defined.

(** X18, witness: a request without [user_id]. *)
Lemma cluster_apply_validates_witness :
  ∃ outcome,
    ClusterApi.cluster_apply params_get int_digits plugins modes sizes
      none_available sized_pool {["size" := "6"]} = (sized_pool, outcome)
    ∧ (outcome = Raise ValueError
       ∨ ∃ msg, outcome
                = Ret (ClusterApi.make_fail_response (Some msg) None)
                ∧ msg ∈ ["cluster_apply without user_id";
                         "Invalid consensus_plugin";
                         "Invalid consensus_mode";
                         "Invalid cluster_size"]).
Proof.
  destruct (cluster_apply_validates params_get int_digits plugins modes
              sizes none_available sized_pool {["size" := "6"]})
    as [(u & ? & ? & ? & Hu & _)|H].
  - vm_compute in Hu. discriminate.
  - exact H.
Defined.

(** X19, witness: an action that does not exist. *)
Lemma cluster_actions_rejects_witness :
  ClusterApi.cluster_actions params_get int_digits plugins modes sizes
    none_available release_at_0 not_there not_there not_there
    sized_pool {["action" := "pause"]}
  = (sized_pool,
     Ret (ClusterApi.make_fail_response None (Some "Unknown action type"))).
Proof.
  apply (proj1 (cluster_actions_rejects params_get int_digits plugins modes
                  sizes none_available release_at_0 not_there not_there
                  not_there sized_pool {["action" := "pause"]})).
  apply (bool_decide_unpack _). vm_compute. exact I.
Defined.

End more_scenarios.
